(** * The position and broker engine of the backtest runner

    A shallow embedding of [signalHandler.py]: the [signalHandler] class
    that replays trading signals bar by bar, opens and closes one position,
    bands the profit and loss of every closed trade and keeps the history
    columns and the trade counters.

    Modelling choices.
    - Prices, offsets, costs and profits are Python floats in the source.
      They are modelled as exact rationals [Q]: the order is total and the
      arithmetic is exact, so IEEE rounding and NaN are outside the model.
      What a price that is not a number does to the trade counters is
      followed on binary64 itself, in the module [Binary64].
    - [self] is a record; every method takes the record and returns the
      updated one.  A method that can raise returns a [result].
    - The history columns are Python lists of fixed length whose cells start
      as the empty string; a cell is [Blank] until it is assigned.  Index
      assignment raises [IndexError] out of range.
    - The attributes [stop_loss_px] and [take_profit_px] are not created by
      the constructor: they are [None] here until the first assignment, and
      reading them before that raises [AttributeError]. *)

From Stdlib Require Import ZArith QArith Qround Qminmax Lqa Lia.
From Stdlib Require PrimFloat.
From stdpp Require Import base list strings.

Open Scope Q_scope.

(** ** Exceptions and the error monad *)

Inductive exn : Type :=
| IndexError
| TypeError
| AttributeError
| ZeroDivisionError
| UnknownSignal.

Inductive result (A : Type) : Type :=
| Ok (a : A)
| Raise (e : exn).

Arguments Ok {A} a.
Arguments Raise {A} e.

Definition rbind {A B : Type} (m : result A) (k : A -> result B) : result B :=
  match m with
  | Ok a => k a
  | Raise e => Raise e
  end.

Notation "'call' x ':=' m 'in' k" := (rbind m (fun x => k))
  (at level 10, x name, m at level 100, k at level 200).

(** ** Cells of the history columns *)

Inductive cell (A : Type) : Type :=
| Blank
| Filled (a : A).

Arguments Blank {A}.
Arguments Filled {A} a.

(** [l[index] = x] for a bar index: Python raises out of range. *)
Definition list_set {A : Type} (l : list A) (index : nat) (x : A)
  : result (list A) :=
  if (index <? length l)%nat then Ok (<[index := x]> l) else Raise IndexError.

(** [l[-1]]: the last element, [IndexError] on the empty list. *)
Definition list_last {A : Type} (l : list A) : result A :=
  match last l with
  | Some x => Ok x
  | None => Raise IndexError
  end.

(** ** Comparisons and rounding on numbers *)

Definition Qltb (x y : Q) : bool := negb (Qle_bool y x).
Definition Qgtb (x y : Q) : bool := Qltb y x.
Definition Qleb (x y : Q) : bool := Qle_bool x y.
Definition Qgeb (x y : Q) : bool := Qle_bool y x.
Definition Qeqb (x y : Q) : bool := Qeq_bool x y.

(** Round to the nearest integer, ties to the even one. *)
Definition round_half_even (x : Q) : Z :=
  let f := Qfloor x in
  match Qcompare (x - inject_Z f) (1 # 2) with
  | Lt => f
  | Gt => (f + 1)%Z
  | Eq => if Z.even f then f else (f + 1)%Z
  end.

(** [round(x, 5)]. *)
Definition round5 (x : Q) : Q :=
  inject_Z (round_half_even (x * 100000)) / 100000.

(** ** The engine state *)

Record signalHandler : Type := mkHandler {
  original_stop_loss : Q;
  original_take_profit : Q;
  guaranteed_sl : bool;
  broker_cost : Q;
  stop_loss : Q;
  take_profit : Q;
  currency : string;
  frequency : string;
  prev_traded_position : Z;
  prev_traded_price : option Q;
  total_profit : Q;
  stop_loss_px : option Q;
  take_profit_px : option Q;
  current_action : string;
  action : list string;
  position : list (cell Z);
  arr_PL : list (cell Q);
  arr_total_profit : list (cell Q);
  executed_price : list (cell Q);
  stop_loss_px_list : list (cell Q);
  take_profit_px_list : list (cell Q);
  trades_total : Z;
  trades_won : Z;
  trades_lost : Z;
  trades_tied : Z
}.

(** ** Attribute assignment

    [set_f v self] is the state after [self.f = v]. *)

Definition set_stop_loss (v : Q) (self : signalHandler) : signalHandler :=
  mkHandler (original_stop_loss self) (original_take_profit self)
    (guaranteed_sl self) (broker_cost self) v (take_profit self)
    (currency self) (frequency self) (prev_traded_position self)
    (prev_traded_price self) (total_profit self) (stop_loss_px self)
    (take_profit_px self) (current_action self) (action self)
    (position self) (arr_PL self) (arr_total_profit self)
    (executed_price self) (stop_loss_px_list self)
    (take_profit_px_list self) (trades_total self) (trades_won self)
    (trades_lost self) (trades_tied self).

Definition set_take_profit (v : Q) (self : signalHandler) : signalHandler :=
  mkHandler (original_stop_loss self) (original_take_profit self)
    (guaranteed_sl self) (broker_cost self) (stop_loss self) v
    (currency self) (frequency self) (prev_traded_position self)
    (prev_traded_price self) (total_profit self) (stop_loss_px self)
    (take_profit_px self) (current_action self) (action self)
    (position self) (arr_PL self) (arr_total_profit self)
    (executed_price self) (stop_loss_px_list self)
    (take_profit_px_list self) (trades_total self) (trades_won self)
    (trades_lost self) (trades_tied self).

Definition set_prev_traded_position (v : Z) (self : signalHandler) : signalHandler :=
  mkHandler (original_stop_loss self) (original_take_profit self)
    (guaranteed_sl self) (broker_cost self) (stop_loss self)
    (take_profit self) (currency self) (frequency self) v
    (prev_traded_price self) (total_profit self) (stop_loss_px self)
    (take_profit_px self) (current_action self) (action self)
    (position self) (arr_PL self) (arr_total_profit self)
    (executed_price self) (stop_loss_px_list self)
    (take_profit_px_list self) (trades_total self) (trades_won self)
    (trades_lost self) (trades_tied self).

Definition set_prev_traded_price (v : option Q) (self : signalHandler) : signalHandler :=
  mkHandler (original_stop_loss self) (original_take_profit self)
    (guaranteed_sl self) (broker_cost self) (stop_loss self)
    (take_profit self) (currency self) (frequency self)
    (prev_traded_position self) v (total_profit self) (stop_loss_px self)
    (take_profit_px self) (current_action self) (action self)
    (position self) (arr_PL self) (arr_total_profit self)
    (executed_price self) (stop_loss_px_list self)
    (take_profit_px_list self) (trades_total self) (trades_won self)
    (trades_lost self) (trades_tied self).

Definition set_total_profit (v : Q) (self : signalHandler) : signalHandler :=
  mkHandler (original_stop_loss self) (original_take_profit self)
    (guaranteed_sl self) (broker_cost self) (stop_loss self)
    (take_profit self) (currency self) (frequency self)
    (prev_traded_position self) (prev_traded_price self) v
    (stop_loss_px self) (take_profit_px self) (current_action self)
    (action self) (position self) (arr_PL self) (arr_total_profit self)
    (executed_price self) (stop_loss_px_list self)
    (take_profit_px_list self) (trades_total self) (trades_won self)
    (trades_lost self) (trades_tied self).

Definition set_stop_loss_px (v : option Q) (self : signalHandler) : signalHandler :=
  mkHandler (original_stop_loss self) (original_take_profit self)
    (guaranteed_sl self) (broker_cost self) (stop_loss self)
    (take_profit self) (currency self) (frequency self)
    (prev_traded_position self) (prev_traded_price self) (total_profit self)
    v (take_profit_px self) (current_action self) (action self)
    (position self) (arr_PL self) (arr_total_profit self)
    (executed_price self) (stop_loss_px_list self)
    (take_profit_px_list self) (trades_total self) (trades_won self)
    (trades_lost self) (trades_tied self).

Definition set_take_profit_px (v : option Q) (self : signalHandler) : signalHandler :=
  mkHandler (original_stop_loss self) (original_take_profit self)
    (guaranteed_sl self) (broker_cost self) (stop_loss self)
    (take_profit self) (currency self) (frequency self)
    (prev_traded_position self) (prev_traded_price self) (total_profit self)
    (stop_loss_px self) v (current_action self) (action self)
    (position self) (arr_PL self) (arr_total_profit self)
    (executed_price self) (stop_loss_px_list self)
    (take_profit_px_list self) (trades_total self) (trades_won self)
    (trades_lost self) (trades_tied self).

Definition set_current_action (v : string) (self : signalHandler) : signalHandler :=
  mkHandler (original_stop_loss self) (original_take_profit self)
    (guaranteed_sl self) (broker_cost self) (stop_loss self)
    (take_profit self) (currency self) (frequency self)
    (prev_traded_position self) (prev_traded_price self) (total_profit self)
    (stop_loss_px self) (take_profit_px self) v (action self)
    (position self) (arr_PL self) (arr_total_profit self)
    (executed_price self) (stop_loss_px_list self)
    (take_profit_px_list self) (trades_total self) (trades_won self)
    (trades_lost self) (trades_tied self).

Definition set_action (v : list string) (self : signalHandler) : signalHandler :=
  mkHandler (original_stop_loss self) (original_take_profit self)
    (guaranteed_sl self) (broker_cost self) (stop_loss self)
    (take_profit self) (currency self) (frequency self)
    (prev_traded_position self) (prev_traded_price self) (total_profit self)
    (stop_loss_px self) (take_profit_px self) (current_action self) v
    (position self) (arr_PL self) (arr_total_profit self)
    (executed_price self) (stop_loss_px_list self)
    (take_profit_px_list self) (trades_total self) (trades_won self)
    (trades_lost self) (trades_tied self).

Definition set_position (v : list (cell Z)) (self : signalHandler) : signalHandler :=
  mkHandler (original_stop_loss self) (original_take_profit self)
    (guaranteed_sl self) (broker_cost self) (stop_loss self)
    (take_profit self) (currency self) (frequency self)
    (prev_traded_position self) (prev_traded_price self) (total_profit self)
    (stop_loss_px self) (take_profit_px self) (current_action self)
    (action self) v (arr_PL self) (arr_total_profit self)
    (executed_price self) (stop_loss_px_list self)
    (take_profit_px_list self) (trades_total self) (trades_won self)
    (trades_lost self) (trades_tied self).

Definition set_arr_PL (v : list (cell Q)) (self : signalHandler) : signalHandler :=
  mkHandler (original_stop_loss self) (original_take_profit self)
    (guaranteed_sl self) (broker_cost self) (stop_loss self)
    (take_profit self) (currency self) (frequency self)
    (prev_traded_position self) (prev_traded_price self) (total_profit self)
    (stop_loss_px self) (take_profit_px self) (current_action self)
    (action self) (position self) v (arr_total_profit self)
    (executed_price self) (stop_loss_px_list self)
    (take_profit_px_list self) (trades_total self) (trades_won self)
    (trades_lost self) (trades_tied self).

Definition set_arr_total_profit (v : list (cell Q)) (self : signalHandler) : signalHandler :=
  mkHandler (original_stop_loss self) (original_take_profit self)
    (guaranteed_sl self) (broker_cost self) (stop_loss self)
    (take_profit self) (currency self) (frequency self)
    (prev_traded_position self) (prev_traded_price self) (total_profit self)
    (stop_loss_px self) (take_profit_px self) (current_action self)
    (action self) (position self) (arr_PL self) v (executed_price self)
    (stop_loss_px_list self) (take_profit_px_list self) (trades_total self)
    (trades_won self) (trades_lost self) (trades_tied self).

Definition set_executed_price (v : list (cell Q)) (self : signalHandler) : signalHandler :=
  mkHandler (original_stop_loss self) (original_take_profit self)
    (guaranteed_sl self) (broker_cost self) (stop_loss self)
    (take_profit self) (currency self) (frequency self)
    (prev_traded_position self) (prev_traded_price self) (total_profit self)
    (stop_loss_px self) (take_profit_px self) (current_action self)
    (action self) (position self) (arr_PL self) (arr_total_profit self) v
    (stop_loss_px_list self) (take_profit_px_list self) (trades_total self)
    (trades_won self) (trades_lost self) (trades_tied self).

Definition set_stop_loss_px_list (v : list (cell Q)) (self : signalHandler) : signalHandler :=
  mkHandler (original_stop_loss self) (original_take_profit self)
    (guaranteed_sl self) (broker_cost self) (stop_loss self)
    (take_profit self) (currency self) (frequency self)
    (prev_traded_position self) (prev_traded_price self) (total_profit self)
    (stop_loss_px self) (take_profit_px self) (current_action self)
    (action self) (position self) (arr_PL self) (arr_total_profit self)
    (executed_price self) v (take_profit_px_list self) (trades_total self)
    (trades_won self) (trades_lost self) (trades_tied self).

Definition set_take_profit_px_list (v : list (cell Q)) (self : signalHandler) : signalHandler :=
  mkHandler (original_stop_loss self) (original_take_profit self)
    (guaranteed_sl self) (broker_cost self) (stop_loss self)
    (take_profit self) (currency self) (frequency self)
    (prev_traded_position self) (prev_traded_price self) (total_profit self)
    (stop_loss_px self) (take_profit_px self) (current_action self)
    (action self) (position self) (arr_PL self) (arr_total_profit self)
    (executed_price self) (stop_loss_px_list self) v (trades_total self)
    (trades_won self) (trades_lost self) (trades_tied self).

Definition set_trades_total (v : Z) (self : signalHandler) : signalHandler :=
  mkHandler (original_stop_loss self) (original_take_profit self)
    (guaranteed_sl self) (broker_cost self) (stop_loss self)
    (take_profit self) (currency self) (frequency self)
    (prev_traded_position self) (prev_traded_price self) (total_profit self)
    (stop_loss_px self) (take_profit_px self) (current_action self)
    (action self) (position self) (arr_PL self) (arr_total_profit self)
    (executed_price self) (stop_loss_px_list self)
    (take_profit_px_list self) v (trades_won self) (trades_lost self)
    (trades_tied self).

Definition set_trades_won (v : Z) (self : signalHandler) : signalHandler :=
  mkHandler (original_stop_loss self) (original_take_profit self)
    (guaranteed_sl self) (broker_cost self) (stop_loss self)
    (take_profit self) (currency self) (frequency self)
    (prev_traded_position self) (prev_traded_price self) (total_profit self)
    (stop_loss_px self) (take_profit_px self) (current_action self)
    (action self) (position self) (arr_PL self) (arr_total_profit self)
    (executed_price self) (stop_loss_px_list self)
    (take_profit_px_list self) (trades_total self) v (trades_lost self)
    (trades_tied self).

Definition set_trades_lost (v : Z) (self : signalHandler) : signalHandler :=
  mkHandler (original_stop_loss self) (original_take_profit self)
    (guaranteed_sl self) (broker_cost self) (stop_loss self)
    (take_profit self) (currency self) (frequency self)
    (prev_traded_position self) (prev_traded_price self) (total_profit self)
    (stop_loss_px self) (take_profit_px self) (current_action self)
    (action self) (position self) (arr_PL self) (arr_total_profit self)
    (executed_price self) (stop_loss_px_list self)
    (take_profit_px_list self) (trades_total self) (trades_won self) v
    (trades_tied self).

Definition set_trades_tied (v : Z) (self : signalHandler) : signalHandler :=
  mkHandler (original_stop_loss self) (original_take_profit self)
    (guaranteed_sl self) (broker_cost self) (stop_loss self)
    (take_profit self) (currency self) (frequency self)
    (prev_traded_position self) (prev_traded_price self) (total_profit self)
    (stop_loss_px self) (take_profit_px self) (current_action self)
    (action self) (position self) (arr_PL self) (arr_total_profit self)
    (executed_price self) (stop_loss_px_list self)
    (take_profit_px_list self) (trades_total self) (trades_won self)
    (trades_lost self) v.

(** ** The constructor *)

(** [signalHandler(stop_loss, take_profit, guaranteed_sl, broker_cost, data,
    currency, frequency, ...)] over [n = len(data)] bars.  The dates, the
    data frame and the indicator store play no part in the methods below and
    are left out. *)
Definition init (sl tp : Q) (guaranteed : bool) (cost : Q)
    (n : nat) (cur freq : string) : signalHandler :=
  {| original_stop_loss := sl;
     original_take_profit := tp;
     guaranteed_sl := guaranteed;
     broker_cost := cost;
     stop_loss := sl;
     take_profit := tp;
     currency := cur;
     frequency := freq;
     prev_traded_position := 0%Z;
     prev_traded_price := None;
     total_profit := 0;
     stop_loss_px := None;
     take_profit_px := None;
     current_action := "";
     action := replicate n ""%string;
     position := replicate n Blank;
     arr_PL := replicate n Blank;
     arr_total_profit := replicate n Blank;
     executed_price := replicate n Blank;
     stop_loss_px_list := replicate n Blank;
     take_profit_px_list := replicate n Blank;
     trades_total := 0%Z;
     trades_won := 0%Z;
     trades_lost := 0%Z;
     trades_tied := 0%Z |}.

(** ** The methods *)

Definition bandPL (self : signalHandler) (PL : Q) : Q :=
  let PL :=
    if guaranteed_sl self then
      if Qgtb PL (take_profit self) then take_profit self
      else if Qltb PL (stop_loss self) then stop_loss self
      else PL
    else PL in
  PL - broker_cost self.

Definition store_executed_price (self : signalHandler)
    (bid_price ask_price : Q) (index : nat) : result signalHandler :=
  if (current_action self =? "buy")%string
     || (current_action self =? "close short")%string then
    call l := list_set (executed_price self) index (Filled ask_price) in
    Ok (set_executed_price l self)
  else if (current_action self =? "short")%string
          || (current_action self =? "close long")%string then
    call l := list_set (executed_price self) index (Filled bid_price) in
    Ok (set_executed_price l self)
  else Ok self.

Definition closeTrade (self : signalHandler) (PL bid_price ask_price : Q)
    (index : nat) : result signalHandler :=
  let self := set_trades_total (trades_total self + 1)%Z self in
  let self :=
    if (prev_traded_position self =? -1)%Z then
      set_current_action "close short" self
    else if (prev_traded_position self =? 1)%Z then
      set_current_action "close long" self
    else self in
  call self := store_executed_price self bid_price ask_price index in
  let self := set_total_profit (total_profit self + PL) self in
  let self := set_prev_traded_position 0%Z self in
  let self := set_prev_traded_price None self in
  let self := set_stop_loss (original_stop_loss self) self in
  let self := set_take_profit (original_take_profit self) self in
  let self := set_take_profit_px (Some 0) self in
  let self := set_stop_loss_px (Some 0) self in
  if Qgtb (round5 PL) 0 then
    Ok (set_trades_won (trades_won self + 1)%Z self)
  else if Qltb (round5 PL) 0 then
    Ok (set_trades_lost (trades_lost self + 1)%Z self)
  else if Qeqb (round5 PL) 0 then
    Ok (set_trades_tied (trades_tied self + 1)%Z self)
  else Ok self.

Definition saveStats (self : signalHandler) (PL : Q) (index : nat)
  : result signalHandler :=
  call self :=
    (if (prev_traded_position self =? 1)%Z then
       call l := list_set (action self) index (current_action self) in
       Ok (set_action l self)
     else if (prev_traded_position self =? -1)%Z then
       call l := list_set (action self) index (current_action self) in
       Ok (set_action l self)
     else if (prev_traded_position self =? 0)%Z then
       call l := list_set (action self) index (current_action self) in
       Ok (set_action l self)
     else Ok self) in
  call l := list_set (arr_PL self) index (Filled PL) in
  let self := set_arr_PL l self in
  call l := list_set (arr_total_profit self) index
              (Filled (total_profit self)) in
  let self := set_arr_total_profit l self in
  call l := list_set (position self) index
              (Filled (prev_traded_position self)) in
  Ok (set_position l self).

(** Reading an attribute that may not exist yet, and the entry price, which
    is [None] while flat and cannot enter a subtraction then. *)
Definition get_attr (a : option Q) : result Q :=
  match a with
  | Some v => Ok v
  | None => Raise AttributeError
  end.

Definition get_price (a : option Q) : result Q :=
  match a with
  | Some v => Ok v
  | None => Raise TypeError
  end.

(** [checkStopConditions]; the value the method returns is [total_profit]
    of the state returned here. *)
Definition checkStopConditions (self : signalHandler)
    (bid_price ask_price : Q) (index : nat) : result signalHandler :=
  let self := set_current_action "hold" self in
  if (prev_traded_position self =? -1)%Z then
    call entry := get_price (prev_traded_price self) in
    let PL := inject_Z (prev_traded_position self) * (ask_price - entry) in
    call tp_px := get_attr (take_profit_px self) in
    if Qgeb tp_px ask_price then
      let PL := bandPL self PL in
      call self := closeTrade self PL bid_price ask_price index in
      saveStats self PL index
    else
      call sl_px := get_attr (stop_loss_px self) in
      if Qleb sl_px ask_price then
        let PL := bandPL self PL in
        call self := closeTrade self PL bid_price ask_price index in
        saveStats self PL index
      else saveStats self PL index
  else if (prev_traded_position self =? 1)%Z then
    call entry := get_price (prev_traded_price self) in
    let PL := inject_Z (prev_traded_position self) * (bid_price - entry) in
    call tp_px := get_attr (take_profit_px self) in
    if Qleb tp_px bid_price then
      let PL := bandPL self PL in
      call self := closeTrade self PL bid_price ask_price index in
      saveStats self PL index
    else
      call sl_px := get_attr (stop_loss_px self) in
      if Qgeb sl_px bid_price then
        let PL := bandPL self PL in
        call self := closeTrade self PL bid_price ask_price index in
        saveStats self PL index
      else saveStats self PL index
  else saveStats self 0 index.

Definition buy (self : signalHandler) (bid_price ask_price : Q)
    (index : nat) : result signalHandler :=
  if (prev_traded_position self =? 0)%Z then
    let self := set_current_action "buy" self in
    let self := set_prev_traded_position 1%Z self in
    let self := set_prev_traded_price (Some ask_price) self in
    let self := set_stop_loss_px (Some (ask_price + stop_loss self)) self in
    call l := list_set (stop_loss_px_list self) index
                (Filled (ask_price + stop_loss self)) in
    let self := set_stop_loss_px_list l self in
    let self :=
      set_take_profit_px (Some (ask_price + take_profit self)) self in
    call l := list_set (take_profit_px_list self) index
                (Filled (take_profit self)) in
    let self := set_take_profit_px_list l self in
    call self := saveStats self 0 index in
    store_executed_price self bid_price ask_price index
  else if (prev_traded_position self =? 1)%Z then
    checkStopConditions self bid_price ask_price index
  else if (prev_traded_position self =? -1)%Z then
    let self := set_current_action "close short" self in
    call entry := get_price (prev_traded_price self) in
    let PL := inject_Z (prev_traded_position self) * (ask_price - entry) in
    let PL := bandPL self PL in
    call self := closeTrade self PL bid_price ask_price index in
    call self := saveStats self PL index in
    store_executed_price self bid_price ask_price index
  else Raise UnknownSignal.

Definition sell (self : signalHandler) (bid_price ask_price : Q)
    (index : nat) : result signalHandler :=
  if (prev_traded_position self =? 0)%Z then
    let self := set_current_action "short" self in
    let self := set_prev_traded_position (-1)%Z self in
    let self := set_prev_traded_price (Some bid_price) self in
    let self := set_stop_loss_px (Some (bid_price - stop_loss self)) self in
    call l := list_set (stop_loss_px_list self) index
                (Filled (bid_price - stop_loss self)) in
    let self := set_stop_loss_px_list l self in
    let self :=
      set_take_profit_px (Some (bid_price - take_profit self)) self in
    call l := list_set (take_profit_px_list self) index
                (Filled (bid_price - take_profit self)) in
    let self := set_take_profit_px_list l self in
    call self := saveStats self 0 index in
    store_executed_price self bid_price ask_price index
  else if (prev_traded_position self =? -1)%Z then
    checkStopConditions self bid_price ask_price index
  else if (prev_traded_position self =? 1)%Z then
    let self := set_current_action "close long" self in
    call entry := get_price (prev_traded_price self) in
    let PL := inject_Z (prev_traded_position self) * (bid_price - entry) in
    let PL := bandPL self PL in
    call self := closeTrade self PL bid_price ask_price index in
    call self := saveStats self PL index in
    store_executed_price self bid_price ask_price index
  else Raise UnknownSignal.

(** ** The summary *)

(** [a / b] on Python integers: true division, which raises on a zero
    divisor. *)
Definition truediv (a b : Z) : result Q :=
  if (b =? 0)%Z then Raise ZeroDivisionError
  else Ok (inject_Z a / inject_Z b).

(** [(count / total) * 100 if total > 0 else 0]. *)
Definition percentage (count total : Z) : result Q :=
  if (total >? 0)%Z then
    call r := truediv count total in Ok (r * 100)
  else Ok 0.

(** [c * 10000] on a history cell: a number is scaled, and the placeholder,
    an empty string, repeated any number of times is the empty string. *)
Definition cell_scale (c : cell Q) (k : Q) : cell Q :=
  match c with
  | Blank => Blank
  | Filled q => Filled (q * k)
  end.

(** The one row of the summary frame; the two formatted dates are left
    out. *)
Record summary : Type := mkSummary {
  Currency_Pair : string;
  Frequency : string;
  Total_Trades : Z;
  Total_PL : cell Q;
  Total_PL_pips : cell Q;
  Trades_Won_n : Z;
  Trades_Won_pct : Q;
  Trades_Lost_n : Z;
  Trades_Lost_pct : Q;
  Trades_Tied_n : Z;
  Trades_Tied_pct : Q
}.

Definition getSummary (self : signalHandler) : result summary :=
  call pl := list_last (arr_total_profit self) in
  call pl' := list_last (arr_total_profit self) in
  call won := percentage (trades_won self) (trades_total self) in
  call lost := percentage (trades_lost self) (trades_total self) in
  call tied := percentage (trades_tied self) (trades_total self) in
  Ok {| Currency_Pair := currency self;
        Frequency := frequency self;
        Total_Trades := trades_total self;
        Total_PL := pl;
        Total_PL_pips := cell_scale pl' 10000;
        Trades_Won_n := trades_won self;
        Trades_Won_pct := won;
        Trades_Lost_n := trades_lost self;
        Trades_Lost_pct := lost;
        Trades_Tied_n := trades_tied self;
        Trades_Tied_pct := tied |}.

(** ** Runs of the engine *)

(** One call on the engine. *)
Inductive op : Type :=
| OpBuy (bid_price ask_price : Q) (index : nat)
| OpSell (bid_price ask_price : Q) (index : nat)
| OpCheck (bid_price ask_price : Q) (index : nat)
| OpClose (PL bid_price ask_price : Q) (index : nat).

Definition exec (self : signalHandler) (o : op) : result signalHandler :=
  match o with
  | OpBuy b a i => buy self b a i
  | OpSell b a i => sell self b a i
  | OpCheck b a i => checkStopConditions self b a i
  | OpClose pl b a i => closeTrade self pl b a i
  end.

(** A sequence of calls; the first exception ends the run. *)
Fixpoint run (self : signalHandler) (os : list op) : result signalHandler :=
  match os with
  | [] => Ok self
  | o :: os' => call self' := exec self o in run self' os'
  end.

(** The states a run of calls can reach from a freshly constructed engine. *)
Inductive reachable (s0 : signalHandler) : signalHandler -> Prop :=
| reach_init : reachable s0 s0
| reach_step s o s' :
    reachable s0 s -> exec s o = Ok s' -> reachable s0 s'.

(** ** Specification-side notions *)

(** Clamping a value into the interval from [lo] to [hi]. *)
Definition clamp (lo hi x : Q) : Q := Qmax lo (Qmin hi x).

(** All seven history columns have [n] cells. *)
Definition sized (n : nat) (self : signalHandler) : Prop :=
  length (action self) = n /\
  length (position self) = n /\
  length (arr_PL self) = n /\
  length (arr_total_profit self) = n /\
  length (executed_price self) = n /\
  length (stop_loss_px_list self) = n /\
  length (take_profit_px_list self) = n.

(** The entry price and both levels are set. *)
Definition levels_set (self : signalHandler) : Prop :=
  is_Some (prev_traded_price self) /\
  is_Some (stop_loss_px self) /\
  is_Some (take_profit_px self).

(** The entry price and both levels are cleared: the entry price is [None]
    and the two levels are either not created yet or both reset to zero. *)
Definition levels_clear (self : signalHandler) : Prop :=
  prev_traded_price self = None /\
  ((stop_loss_px self = None /\ take_profit_px self = None) \/
   (stop_loss_px self = Some 0 /\ take_profit_px self = Some 0)).

(** The position is flat with everything cleared, or open with everything
    set. *)
Definition coherent (self : signalHandler) : Prop :=
  (prev_traded_position self = 0%Z /\ levels_clear self) \/
  ((prev_traded_position self = 1%Z \/ prev_traded_position self = (-1)%Z)
   /\ levels_set self).

Definition counters_ok (self : signalHandler) : Prop :=
  (trades_won self + trades_lost self + trades_tied self)%Z
  = trades_total self.

(** What a close of the position held in [self] with net profit [net]
    leaves in [self']. *)
Definition closed_with (self self' : signalHandler) (net : Q) : Prop :=
  total_profit self' = total_profit self + net /\
  trades_total self' = (trades_total self + 1)%Z /\
  prev_traded_position self' = 0%Z /\
  prev_traded_price self' = None /\
  stop_loss_px self' = Some 0 /\
  take_profit_px self' = Some 0 /\
  (0 < round5 net ->
     trades_won self' = (trades_won self + 1)%Z /\
     trades_lost self' = trades_lost self /\
     trades_tied self' = trades_tied self) /\
  (round5 net < 0 ->
     trades_won self' = trades_won self /\
     trades_lost self' = (trades_lost self + 1)%Z /\
     trades_tied self' = trades_tied self) /\
  (round5 net == 0 ->
     trades_won self' = trades_won self /\
     trades_lost self' = trades_lost self /\
     trades_tied self' = (trades_tied self + 1)%Z).

(** A close leaves six columns as they are and keeps the size of the
    column of executed prices. *)
Definition same_columns (self self' : signalHandler) : Prop :=
  action self' = action self /\
  position self' = position self /\
  arr_PL self' = arr_PL self /\
  arr_total_profit self' = arr_total_profit self /\
  stop_loss_px_list self' = stop_loss_px_list self /\
  take_profit_px_list self' = take_profit_px_list self /\
  length (executed_price self') = length (executed_price self).

(** The state right after the assignments that open a position, before the
    bar is saved. *)
Definition opened (s : signalHandler) (side : Z) (price sl_px tp_px : Q)
    (ca : string) (l1 l2 : list (cell Q)) : signalHandler :=
  set_take_profit_px_list l2
    (set_take_profit_px (Some tp_px)
       (set_stop_loss_px_list l1
          (set_stop_loss_px (Some sl_px)
             (set_prev_traded_price (Some price)
                (set_prev_traded_position side
                   (set_current_action ca s)))))).

(** The state after [saveStats] has stored the bar. *)
Definition saved (s : signalHandler) (PL : Q) (i : nat) : signalHandler :=
  set_position (<[i := Filled (prev_traded_position s)]> (position s))
    (set_arr_total_profit
       (<[i := Filled (total_profit s)]> (arr_total_profit s))
       (set_arr_PL (<[i := Filled PL]> (arr_PL s))
          (set_action (<[i := current_action s]> (action s)) s))).

(** The body shared by the four closing branches of [checkStopConditions]:
    close the trade with the banded profit, then save the bar. *)
Definition close_and_save (s : signalHandler) (PL b a : Q) (i : nat)
  : result signalHandler :=
  call s1 := closeTrade (set_current_action "hold" s) PL b a i in
  saveStats s1 PL i.

(** Both level columns are left as they were. *)
Definition same_level_columns (s s' : signalHandler) : Prop :=
  stop_loss_px_list s' = stop_loss_px_list s /\
  take_profit_px_list s' = take_profit_px_list s.

(** A bar that holds: the position, the entry price, the levels, the profit
    and the counters are as before. *)
Definition held (s s' : signalHandler) : Prop :=
  prev_traded_position s' = prev_traded_position s /\
  prev_traded_price s' = prev_traded_price s /\
  stop_loss_px s' = stop_loss_px s /\
  take_profit_px s' = take_profit_px s /\
  total_profit s' = total_profit s /\
  trades_total s' = trades_total s /\
  trades_won s' = trades_won s /\
  trades_lost s' = trades_lost s /\
  trades_tied s' = trades_tied s.

(** A history cell records a level: while flat the cell is unset or zero,
    while a position is open it holds the active level. *)
Definition level_recorded (side : Z) (level : option Q) (c : cell Q)
  : Prop :=
  if (side =? 0)%Z then
    c = Blank \/ (exists q, c = Filled q /\ q == 0)
  else
    exists v q, level = Some v /\ c = Filled q /\ q == v.

(** The record of bar [i] holds the active stop-loss and take-profit
    levels. *)
Definition bar_records_levels (s : signalHandler) (i : nat) : Prop :=
  exists c1 c2,
    stop_loss_px_list s !! i = Some c1 /\
    take_profit_px_list s !! i = Some c2 /\
    level_recorded (prev_traded_position s) (stop_loss_px s) c1 /\
    level_recorded (prev_traded_position s) (take_profit_px s) c2.

(** A call is a close event when it is a direct [closeTrade] or when it
    takes an open position to flat. *)
Definition close_event (self : signalHandler) (o : op)
    (self' : signalHandler) : Prop :=
  match o with
  | OpClose _ _ _ _ => True
  | _ => prev_traded_position self <> 0%Z /\ prev_traded_position self' = 0%Z
  end.

(** ** The counting of a closed trade on binary64

    The closing branch of [sell] and the counting of [closeTrade] once more,
    on the floats of the source, with the configuration of the run file.
    Only the counters are kept. *)

Module Binary64.

Import PrimFloat.
Local Open Scope float_scope.
Local Set Warnings "-inexact-float".

Record counters : Type := mkCounters {
  total : Z;
  won : Z;
  lost : Z;
  tied : Z
}.

(** The run file: [one_pip = 0.0001], a limit of 10, a cost of two pips. *)
Definition one_pip : float := 0.0001.
Definition take_profit : float := 10 * one_pip.
Definition stop_loss : float := -10 * one_pip.
Definition broker_cost : float := 2 * one_pip.

Definition bandPL (guaranteed_sl : bool) (PL : float) : float :=
  let PL :=
    if guaranteed_sl then
      if take_profit <? PL then take_profit
      else if PL <? stop_loss then stop_loss
      else PL
    else PL in
  PL - broker_cost.

Section Rounding.

(** [round(x, 5)] returns a value that is not finite as it is; what it
    returns on a finite value is left open here. *)
Variable round_finite : float -> float.

Definition round5 (x : float) : float :=
  if is_finite x then round_finite x else x.

(** The counters through [closeTrade]: one more trade, then the three
    tests on the rounded profit. *)
Definition count_trade (PL : float) (c : counters) : counters :=
  let c := mkCounters (total c + 1) (won c) (lost c) (tied c) in
  if 0 <? round5 PL then
    mkCounters (total c) (won c + 1) (lost c) (tied c)
  else if round5 PL <? 0 then
    mkCounters (total c) (won c) (lost c + 1) (tied c)
  else if round5 PL =? 0 then
    mkCounters (total c) (won c) (lost c) (tied c + 1)
  else c.

(** The counters through a [sell] on a long position. *)
Definition sell_closes_long (guaranteed_sl : bool)
    (prev_traded_price bid_price : float) (c : counters) : counters :=
  let PL := 1 * (bid_price - prev_traded_price) in
  let PL := bandPL guaranteed_sl PL in
  count_trade PL c.

End Rounding.

(** A long entered at 1.105, and a bar whose bid is missing. *)
Definition entry_price : float := 1.105.
Definition missing_price : float := nan.

End Binary64.

(** ** Sample engines *)

(** The engine of the run file: limits of 10 pips either way, no guaranteed
    stop, a cost of 2 pips; here over five bars. *)
Definition demo : signalHandler :=
  init (- (10 # 10000)) (10 # 10000) false (2 # 10000) 5 "EURUSD" "M5".

(** The same engine after a buy at an ask of 1.1050 on bar 0, and after a
    sell at a bid of 1.1049 on bar 0. *)
Definition demo_long : signalHandler :=
  match buy demo (11049 # 10000) (11050 # 10000) 0 with
  | Ok s => s
  | Raise _ => demo
  end.

Definition demo_short : signalHandler :=
  match sell demo (11049 # 10000) (11050 # 10000) 0 with
  | Ok s => s
  | Raise _ => demo
  end.

(** The engine after five bars on which no signal fired. *)
Definition demo_idle : signalHandler :=
  match run demo [OpCheck (11049 # 10000) (11050 # 10000) 0;
                  OpCheck (11051 # 10000) (11052 # 10000) 1;
                  OpCheck (11050 # 10000) (11051 # 10000) 2;
                  OpCheck (11048 # 10000) (11049 # 10000) 3;
                  OpCheck (11049 # 10000) (11050 # 10000) 4] with
  | Ok s => s
  | Raise _ => demo
  end.

(** An engine with a guaranteed stop of -10 pips and target of +20 pips. *)
Definition demo_guaranteed : signalHandler :=
  init (- (10 # 10000)) (20 # 10000) true (2 # 10000) 5 "EURUSD" "M5".

(** ** Methods outside the per-bar path *)


(** The part of the engine [storeSignalAndIndicators] works on: the
    retention flag, the indicator store and the signal column.  A data
    frame is modelled by the list of its rows, so a frame is empty when it
    has no row, and [iloc[-1]] is the last row. *)
Record recorder (row : Type) : Type := mkRecorder {
  storeIndicators : Z;
  indicatorDf : list row;
  signal_list : list (cell Z)
}.

Arguments mkRecorder {row} _ _ _.
Arguments storeIndicators {row} _.
Arguments indicatorDf {row} _.
Arguments signal_list {row} _.

(** The recorder the constructor builds over [n] bars. *)
Definition init_recorder {row : Type} (flag : Z) (n : nat) : recorder row :=
  mkRecorder flag [] (replicate n Blank).

Definition storeSignalAndIndicators {row : Type} (self : recorder row)
    (signal : Z) (frame : option (list row)) (index : nat)
  : result (recorder row) :=
  call self :=
    (if (storeIndicators self =? 1)%Z then
       match frame with
       | Some f =>
           match indicatorDf self with
           | [] => Ok (mkRecorder (storeIndicators self) f (signal_list self))
           | _ :: _ =>
               call r := list_last f in
               Ok (mkRecorder (storeIndicators self)
                     (indicatorDf self ++ [r]) (signal_list self))
           end
       | None => Ok self
       end
     else Ok self) in
  call l := list_set (signal_list self) index (Filled signal) in
  Ok (mkRecorder (storeIndicators self) (indicatorDf self) l).

(** One bar after the other, bar [k] of the list at index [start + k]. *)
Fixpoint store_all {row : Type} (self : recorder row) (start : nat)
    (bars : list (Z * option (list row))) : result (recorder row) :=
  match bars with
  | [] => Ok self
  | (signal, frame) :: bars' =>
      call self' := storeSignalAndIndicators self signal frame start in
      store_all self' (S start) bars'
  end.

(** A bar whose frame is not empty, given by its signal, the rows of the
    frame before the last one and the last row. *)
Definition later_bar {row : Type} (x : Z * list row * row)
  : Z * option (list row) :=
  (fst (fst x), Some (snd (fst x) ++ [snd x])).

(** ** More specification-side notions *)

(** The call made for one bar, and its index. *)
Definition bar_index (o : op) : nat :=
  match o with
  | OpBuy _ _ i | OpSell _ _ i | OpCheck _ _ i | OpClose _ _ _ i => i
  end.

(** Every cell of the seven columns other than the cells of bar [i] is the
    same in [s'] as in [s]. *)
Definition same_cells_except (i : nat) (s s' : signalHandler) : Prop :=
  forall j, j <> i ->
    action s' !! j = action s !! j /\
    position s' !! j = position s !! j /\
    arr_PL s' !! j = arr_PL s !! j /\
    arr_total_profit s' !! j = arr_total_profit s !! j /\
    executed_price s' !! j = executed_price s !! j /\
    stop_loss_px_list s' !! j = stop_loss_px_list s !! j /\
    take_profit_px_list s' !! j = take_profit_px_list s !! j.

(** The configuration of the engine is the one it was constructed with. *)
Definition config_is (sl tp : Q) (g : bool) (c : Q) (cur fr : string)
    (s : signalHandler) : Prop :=
  original_stop_loss s = sl /\ original_take_profit s = tp /\
  stop_loss s = sl /\ take_profit s = tp /\
  guaranteed_sl s = g /\ broker_cost s = c /\
  currency s = cur /\ frequency s = fr.

(** The levels of an open position sit at the entry price plus the offsets
    for a long and minus the offsets for a short. *)
Definition levels_track (s : signalHandler) : Prop :=
  (prev_traded_position s = 1%Z ->
   exists e, prev_traded_price s = Some e /\
             stop_loss_px s = Some (e + stop_loss s) /\
             take_profit_px s = Some (e + take_profit s)) /\
  (prev_traded_position s = (-1)%Z ->
   exists e, prev_traded_price s = Some e /\
             stop_loss_px s = Some (e - stop_loss s) /\
             take_profit_px s = Some (e - take_profit s)).

(** The bar record of [saveStats] shows the state the call leaves. *)
Definition bar_shows_state (s' : signalHandler) (i : nat) : Prop :=
  position s' !! i = Some (Filled (prev_traded_position s')) /\
  arr_total_profit s' !! i = Some (Filled (total_profit s')) /\
  action s' !! i = Some (current_action s').

(** The engine of the run file after a buy on bar 0 closed by a sell on
    bar 1. *)
Definition demo_closed : signalHandler :=
  match run demo [OpBuy (11049 # 10000) (11050 # 10000) 0;
                  OpSell (11070 # 10000) (11071 # 10000) 1] with
  | Ok s => s
  | Raise _ => demo
  end.

(** * Basic facts *)

Section Comparisons.

Variables x y : Q.

Lemma Qltb_lt : Qltb x y = true <-> x < y.
Proof.
  unfold Qltb. rewrite negb_true_iff.
  split; intros H.
  - apply Qnot_le_lt. intros Hle. apply Qle_bool_iff in Hle. congruence.
  - destruct (Qle_bool y x) eqn:E; [|reflexivity].
    apply Qle_bool_iff in E. lra.
Qed.

Lemma Qltb_ge : Qltb x y = false <-> y <= x.
Proof.
  unfold Qltb. rewrite negb_false_iff. apply Qle_bool_iff.
Qed.

Lemma Qgtb_gt : Qgtb x y = true <-> y < x.
Proof.
  unfold Qgtb, Qltb. rewrite negb_true_iff.
  split; intros H.
  - apply Qnot_le_lt. intros Hle. apply Qle_bool_iff in Hle. congruence.
  - destruct (Qle_bool x y) eqn:E; [|reflexivity].
    apply Qle_bool_iff in E. lra.
Qed.

Lemma Qgtb_le : Qgtb x y = false <-> x <= y.
Proof.
  unfold Qgtb, Qltb. rewrite negb_false_iff. apply Qle_bool_iff.
Qed.

Lemma Qleb_le : Qleb x y = true <-> x <= y.
Proof. apply Qle_bool_iff. Qed.

Lemma Qleb_gt : Qleb x y = false <-> y < x.
Proof.
  unfold Qleb. split; intros H.
  - apply Qnot_le_lt. intros Hle. apply Qle_bool_iff in Hle. congruence.
  - destruct (Qle_bool x y) eqn:E; [|reflexivity].
    apply Qle_bool_iff in E. lra.
Qed.

Lemma Qgeb_ge : Qgeb x y = true <-> y <= x.
Proof. apply Qle_bool_iff. Qed.

Lemma Qgeb_lt : Qgeb x y = false <-> x < y.
Proof.
  unfold Qgeb. split; intros H.
  - apply Qnot_le_lt. intros Hle. apply Qle_bool_iff in Hle. congruence.
  - destruct (Qle_bool y x) eqn:E; [|reflexivity].
    apply Qle_bool_iff in E. lra.
Qed.

Lemma Qeqb_eq : Qeqb x y = true <-> x == y.
Proof. apply Qeq_bool_iff. Qed.

End Comparisons.

(** On rationals the three tests of [closeTrade] leave no fourth case. *)
Lemma sign_trichotomy (x : Q) :
  Qgtb x 0 = false -> Qltb x 0 = false -> Qeqb x 0 = true.
Proof.
  intros H1 H2. apply Qgtb_le in H1. apply Qltb_ge in H2.
  apply Qeqb_eq. lra.
Qed.

Section ListSet.

Context {A : Type}.
Implicit Types (l : list A) (i : nat) (x : A).

Lemma list_set_ok l i x :
  (i < length l)%nat -> list_set l i x = Ok (<[i := x]> l).
Proof.
  intros H. unfold list_set.
  destruct (Nat.ltb_spec i (length l)); [reflexivity | lia].
Qed.

Lemma list_set_raise l i x :
  (length l <= i)%nat -> list_set l i x = Raise IndexError.
Proof.
  intros H. unfold list_set.
  destruct (Nat.ltb_spec i (length l)); [lia | reflexivity].
Qed.

Lemma list_set_inv l i x l' :
  list_set l i x = Ok l' -> (i < length l)%nat /\ l' = <[i := x]> l.
Proof.
  unfold list_set.
  destruct (Nat.ltb_spec i (length l)); [|discriminate].
  intros [= <-]. auto.
Qed.

Lemma list_set_length l i x l' :
  list_set l i x = Ok l' -> length l' = length l.
Proof.
  intros H. apply list_set_inv in H as [_ ->]. apply length_insert.
Qed.

Lemma list_last_ok l :
  l <> [] -> exists x, last l = Some x /\ list_last l = Ok x.
Proof.
  intros H. unfold list_last.
  destruct (last l) as [x|] eqn:E; [eauto|].
  apply last_None in E. contradiction.
Qed.

Lemma list_last_nil : list_last (@nil A) = Raise IndexError.
Proof. reflexivity. Qed.

End ListSet.

(** * Banding *)

Lemma clamp_cases (lo hi x : Q) :
  lo <= hi ->
  (hi < x -> clamp lo hi x == hi) /\
  (x < lo -> clamp lo hi x == lo) /\
  (lo <= x <= hi -> clamp lo hi x == x).
Proof.
  intros Hwf. unfold clamp.
  destruct (Q.min_spec hi x) as [[H1 E1] | [H1 E1]];
    destruct (Q.max_spec lo (Qmin hi x)) as [[H2 E2] | [H2 E2]];
    rewrite E2, ?E1; rewrite E1 in H2;
    repeat split; intros; lra.
Qed.

(** C3. With the guaranteed-stop flag on, [bandPL] returns the raw profit
    clamped into the interval from the stop-loss offset to the take-profit
    offset, minus the broker cost; with the flag off it returns the raw
    profit minus the broker cost.  The cost is taken off after the clamp.
    With a stop of -10 pips and a target of +20 pips, a raw profit of +35
    pips gives +20 pips minus the cost with the flag on and +35 pips minus
    the cost with the flag off. *)
Theorem bandPL_clamps_then_costs (self : signalHandler) (PL : Q)
    (Hinterval : stop_loss self <= take_profit self) :
  (guaranteed_sl self = true ->
     bandPL self PL
     == clamp (stop_loss self) (take_profit self) PL - broker_cost self) /\
  (guaranteed_sl self = false ->
     bandPL self PL = PL - broker_cost self) /\
  (stop_loss self == - (10 # 10000) ->
   take_profit self == 20 # 10000 ->
   PL == 35 # 10000 ->
   bandPL self PL
   == (if guaranteed_sl self then 20 # 10000 else 35 # 10000)
      - broker_cost self).
Proof.
  assert (Hon : guaranteed_sl self = true ->
    bandPL self PL
    == clamp (stop_loss self) (take_profit self) PL - broker_cost self).
  { intros Hg. unfold bandPL. rewrite Hg.
    destruct (clamp_cases _ _ PL Hinterval) as (Hhi & Hlo & Hmid).
    destruct (Qgtb PL (take_profit self)) eqn:E1.
    - apply Qgtb_gt in E1. rewrite (Hhi E1). reflexivity.
    - apply Qgtb_le in E1.
      destruct (Qltb PL (stop_loss self)) eqn:E2.
      + apply Qltb_lt in E2. rewrite (Hlo E2). reflexivity.
      + apply Qltb_ge in E2. rewrite Hmid by (split; assumption).
        reflexivity. }
  split; [exact Hon|]. split.
  - intros Hg. unfold bandPL. rewrite Hg. reflexivity.
  - intros Hsl Htp Hpl.
    destruct (guaranteed_sl self) eqn:Hg.
    + rewrite (Hon eq_refl).
      destruct (clamp_cases _ _ PL Hinterval) as (Hhi & _ & _).
      rewrite Hhi by lra. lra.
    + unfold bandPL. rewrite Hg. lra.
Qed.

Lemma bandPL_clamps_then_costs_witness :
  stop_loss demo_guaranteed <= take_profit demo_guaranteed /\
  bandPL demo_guaranteed (35 # 10000) == (20 # 10000) - (2 # 10000).
Proof.
  assert (Hinterval : stop_loss demo_guaranteed <= take_profit demo_guaranteed)
    by (apply Qle_bool_iff; vm_compute; reflexivity).
  split; [exact Hinterval|].
  destruct (bandPL_clamps_then_costs demo_guaranteed (35 # 10000) Hinterval)
    as (_ & _ & Hexample).
  apply Hexample; reflexivity.
Defined.

(** * Effects of the methods *)

#[local] Arguments Qplus : simpl never.
#[local] Arguments Qminus : simpl never.
#[local] Arguments Qmult : simpl never.
#[local] Arguments Qdiv : simpl never.
#[local] Arguments Qopp : simpl never.
#[local] Arguments inject_Z : simpl never.
#[local] Arguments round5 : simpl never.
#[local] Arguments bandPL : simpl never.
#[local] Arguments Qgtb : simpl never.
#[local] Arguments Qltb : simpl never.
#[local] Arguments Qleb : simpl never.
#[local] Arguments Qgeb : simpl never.
#[local] Arguments Qeqb : simpl never.
#[local] Arguments list_set : simpl never.
#[local] Arguments rbind : simpl nomatch.

Lemma rbind_inv {A B : Type} (m : result A) (k : A -> result B) (b : B) :
  rbind m k = Ok b -> exists a, m = Ok a /\ k a = Ok b.
Proof. destruct m; simpl; [eauto | discriminate]. Qed.

(** Invert a successful sequence of fallible calls. *)
Ltac bind_inv H :=
  let x := fresh "x" in
  let Hx := fresh "Hx" in
  apply rbind_inv in H as (x & Hx & H).

Lemma set_executed_price_id (s : signalHandler) :
  set_executed_price (executed_price s) s = s.
Proof. destruct s; reflexivity. Qed.

Lemma set_action_id (s : signalHandler) : set_action (action s) s = s.
Proof. destruct s; reflexivity. Qed.

(** [store_executed_price] assigns at most one cell of one column. *)
Lemma store_executed_price_eff s b a i s' :
  store_executed_price s b a i = Ok s' ->
  exists l, length l = length (executed_price s)
            /\ s' = set_executed_price l s.
Proof.
  unfold store_executed_price. intros H.
  destruct (_ || _).
  - bind_inv H. injection H as <-. exists x. split; [|reflexivity].
    eapply list_set_length; eassumption.
  - destruct (_ || _).
    + bind_inv H. injection H as <-. exists x. split; [|reflexivity].
      eapply list_set_length; eassumption.
    + injection H as <-. exists (executed_price s).
      split; [reflexivity | symmetry; apply set_executed_price_id].
Qed.

(** [saveStats] assigns cells of four columns. *)
Lemma saveStats_eff s PL i s' :
  saveStats s PL i = Ok s' ->
  exists la lpl ltp lp,
    length la = length (action s) /\
    length lpl = length (arr_PL s) /\
    length ltp = length (arr_total_profit s) /\
    length lp = length (position s) /\
    s' = set_position lp
           (set_arr_total_profit ltp (set_arr_PL lpl (set_action la s))).
Proof.
  unfold saveStats. intros H.
  bind_inv H.
  assert (Ha : exists la, length la = length (action s)
                          /\ x = set_action la s).
  { repeat match type of Hx with
           | context [if ?c then _ else _] => destruct c
           end.
    1-3: bind_inv Hx; injection Hx as <-; eexists; split;
           [eapply list_set_length; eassumption | reflexivity].
    injection Hx as <-. exists (action s).
    split; [reflexivity | symmetry; apply set_action_id]. }
  destruct Ha as (la & Hla & ->).
  bind_inv H. bind_inv H. bind_inv H. injection H as <-.
  simpl in *.
  exists la, x, x0, x1.
  repeat split; try assumption; eapply list_set_length; eassumption.
Qed.

Ltac close_tac :=
  first [reflexivity | tauto | (exfalso; lra) | intuition congruence].

(** [closeTrade] closes the position with the profit it is given and keeps
    the size of every column. *)
Lemma closeTrade_eff s PL b a i s' :
  closeTrade s PL b a i = Ok s' ->
  closed_with s s' PL /\ same_columns s s'.
Proof.
  unfold closeTrade. intros H. bind_inv H.
  assert (Hx' : exists l, length l = length (executed_price s) /\
     x = set_executed_price l
           (set_current_action (current_action x)
              (set_trades_total (trades_total s + 1)%Z s))).
  { simpl in Hx.
    repeat match type of Hx with
           | context [if ?c then _ else _] => destruct c
           end;
    apply store_executed_price_eff in Hx as (l & Hl & ->);
    exists l; (split; [exact Hl|]); simpl;
    first [reflexivity | destruct s; reflexivity]. }
  clear Hx. destruct Hx' as (l & Hl & Hx).
  set (ca := current_action x) in Hx. clearbody ca. subst x.
  simpl in H.
  destruct (Qgtb (round5 PL) 0) eqn:E1;
    [|destruct (Qltb (round5 PL) 0) eqn:E2;
      [|destruct (Qeqb (round5 PL) 0) eqn:E3]];
    injection H as <-; unfold closed_with, same_columns; simpl.
  - apply Qgtb_gt in E1.
    repeat split; intros; close_tac.
  - apply Qgtb_le in E1. apply Qltb_lt in E2.
    repeat split; intros; close_tac.
  - apply Qeqb_eq in E3.
    repeat split; intros; close_tac.
  - rewrite (sign_trichotomy _ E1 E2) in E3. discriminate.
Qed.

(** The shape of a successful [checkStopConditions]: the bar is a hold, or
    an open position is closed and the bar is saved. *)
Lemma checkStopConditions_cases s b a i s' :
  checkStopConditions s b a i = Ok s' ->
  (exists PL, saveStats (set_current_action "hold" s) PL i = Ok s') \/
  (exists PL s1,
     (prev_traded_position s = 1%Z \/ prev_traded_position s = (-1)%Z) /\
     closeTrade (set_current_action "hold" s) PL b a i = Ok s1 /\
     saveStats s1 PL i = Ok s').
Proof.
  unfold checkStopConditions. simpl. intros H.
  destruct (Z.eqb_spec (prev_traded_position s) (-1)) as [Hp|_].
  - bind_inv H. bind_inv H.
    destruct (Qgeb x0 a).
    + bind_inv H. right. eauto 6.
    + bind_inv H. destruct (Qleb x1 a).
      * bind_inv H. right. eauto 6.
      * left. eauto.
  - destruct (Z.eqb_spec (prev_traded_position s) 1) as [Hp|_].
    + bind_inv H. bind_inv H.
      destruct (Qleb x0 b).
      * bind_inv H. right. eauto 6.
      * bind_inv H. destruct (Qgeb x1 b).
        -- bind_inv H. right. eauto 6.
        -- left. eauto.
    + left. eauto.
Qed.

(** The shape of a successful [buy] or [sell] from a flat position. *)
Lemma buy_cases s b a i s' :
  buy s b a i = Ok s' ->
  (prev_traded_position s = 0%Z /\
   exists l1 l2 s1,
     length l1 = length (stop_loss_px_list s) /\
     length l2 = length (take_profit_px_list s) /\
     saveStats (opened s 1 a (a + stop_loss s) (a + take_profit s)
                  "buy" l1 l2) 0 i = Ok s1 /\
     store_executed_price s1 b a i = Ok s') \/
  (prev_traded_position s = 1%Z /\ checkStopConditions s b a i = Ok s') \/
  (prev_traded_position s = (-1)%Z /\
   exists PL s1 s2,
     closeTrade (set_current_action "close short" s) PL b a i = Ok s1 /\
     saveStats s1 PL i = Ok s2 /\
     store_executed_price s2 b a i = Ok s').
Proof.
  unfold buy. intros H.
  destruct (Z.eqb_spec (prev_traded_position s) 0) as [Hp|_].
  - left. split; [assumption|]. simpl in H.
    bind_inv H. bind_inv H. bind_inv H.
    exists x, x0, x1. unfold opened.
    repeat split; try assumption; eapply list_set_length; eassumption.
  - destruct (Z.eqb_spec (prev_traded_position s) 1) as [Hp|_];
      [right; left; auto|].
    destruct (Z.eqb_spec (prev_traded_position s) (-1)) as [Hp|_];
      [|discriminate].
    right; right. split; [assumption|]. simpl in H.
    bind_inv H. bind_inv H. bind_inv H. eauto 8.
Qed.

Lemma sell_cases s b a i s' :
  sell s b a i = Ok s' ->
  (prev_traded_position s = 0%Z /\
   exists l1 l2 s1,
     length l1 = length (stop_loss_px_list s) /\
     length l2 = length (take_profit_px_list s) /\
     saveStats (opened s (-1) b (b - stop_loss s) (b - take_profit s)
                  "short" l1 l2) 0 i = Ok s1 /\
     store_executed_price s1 b a i = Ok s') \/
  (prev_traded_position s = (-1)%Z /\ checkStopConditions s b a i = Ok s') \/
  (prev_traded_position s = 1%Z /\
   exists PL s1 s2,
     closeTrade (set_current_action "close long" s) PL b a i = Ok s1 /\
     saveStats s1 PL i = Ok s2 /\
     store_executed_price s2 b a i = Ok s').
Proof.
  unfold sell. intros H.
  destruct (Z.eqb_spec (prev_traded_position s) 0) as [Hp|_].
  - left. split; [assumption|]. simpl in H.
    bind_inv H. bind_inv H. bind_inv H.
    exists x, x0, x1. unfold opened.
    repeat split; try assumption; eapply list_set_length; eassumption.
  - destruct (Z.eqb_spec (prev_traded_position s) (-1)) as [Hp|_];
      [right; left; auto|].
    destruct (Z.eqb_spec (prev_traded_position s) 1) as [Hp|_];
      [|discriminate].
    right; right. split; [assumption|]. simpl in H.
    bind_inv H. bind_inv H. bind_inv H. eauto 8.
Qed.

(** * What every call preserves *)

Ltac effects :=
  repeat match goal with
  | H : store_executed_price _ _ _ _ = Ok _ |- _ =>
      apply store_executed_price_eff in H as (? & ? & ->)
  | H : saveStats _ _ _ = Ok _ |- _ =>
      apply saveStats_eff in H as (? & ? & ? & ? & ? & ? & ? & ? & ->)
  | H : closeTrade _ _ _ _ _ = Ok _ |- _ =>
      apply closeTrade_eff in H as (? & ?)
  end.

(** Reduce a successful call to the helper calls it made. *)
Ltac exec_cases H :=
  match type of H with
  | exec _ ?o = Ok _ =>
      first [is_var o; destruct o | idtac]; simpl in H; exec_cases H
  | buy _ _ _ _ = Ok _ =>
      apply buy_cases in H as
        [(? & ? & ? & ? & ? & ? & ? & H)
        |[(? & H)|(? & ? & ? & ? & ? & ? & H)]];
      [| exec_cases H |]
  | sell _ _ _ _ = Ok _ =>
      apply sell_cases in H as
        [(? & ? & ? & ? & ? & ? & ? & H)
        |[(? & H)|(? & ? & ? & ? & ? & ? & H)]];
      [| exec_cases H |]
  | checkStopConditions _ _ _ _ = Ok _ =>
      apply checkStopConditions_cases in H as
        [(? & H)|(? & ? & ? & ? & H)]
  | _ => idtac
  end.

Lemma closed_with_counters s s' PL :
  closed_with s s' PL ->
  (trades_won s' + trades_lost s' + trades_tied s')%Z
  = (trades_won s + trades_lost s + trades_tied s + 1)%Z.
Proof.
  intros (_ & _ & _ & _ & _ & _ & Hw & Hl & Ht).
  destruct (Q_dec (round5 PL) 0) as [[Hlt|Hgt]|Heq].
  - destruct (Hl Hlt) as (-> & -> & ->). lia.
  - destruct (Hw Hgt) as (-> & -> & ->). lia.
  - destruct (Ht Heq) as (-> & -> & ->). lia.
Qed.

Lemma exec_sized s o s' n : exec s o = Ok s' -> sized n s -> sized n s'.
Proof.
  intros H Hs. exec_cases H; effects;
    unfold sized, same_columns in *; simpl in *; intuition congruence.
Qed.

Lemma exec_counters s o s' :
  exec s o = Ok s' ->
  (counters_ok s -> counters_ok s') /\
  (close_event s o s' -> trades_total s' = (trades_total s + 1)%Z) /\
  (~ close_event s o s' -> trades_total s' = trades_total s).
Proof.
  intros H. unfold counters_ok.
  destruct o; unfold close_event; exec_cases H; effects;
    repeat match goal with
    | Hc : closed_with _ _ _ |- _ =>
        pose proof (closed_with_counters _ _ _ Hc);
        destruct Hc as (_ & ? & ? & _)
    end;
    simpl in *; repeat split; intros; try lia; try tauto.
Qed.

Lemma exec_coherent s o s' : exec s o = Ok s' -> coherent s -> coherent s'.
Proof.
  intros H Hc.
  exec_cases H; effects;
    repeat match goal with
    | Hw : closed_with _ _ _ |- _ =>
        destruct Hw as (_ & _ & ? & ? & ? & ? & _)
    end;
    unfold coherent, levels_set, levels_clear in *; simpl in *;
    try (left; tauto);
    try (right; split; [auto | repeat split; eexists; reflexivity]);
    try assumption.
Qed.

(** * Calls that succeed *)

Lemma store_executed_price_ask s b a i :
  current_action s = "buy"%string \/ current_action s = "close short"%string ->
  (i < length (executed_price s))%nat ->
  store_executed_price s b a i
  = Ok (set_executed_price (<[i := Filled a]> (executed_price s)) s).
Proof.
  intros Hc Hi. unfold store_executed_price.
  destruct Hc as [-> | ->]; simpl; rewrite list_set_ok by assumption;
    reflexivity.
Qed.

Lemma store_executed_price_bid s b a i :
  current_action s = "short"%string \/ current_action s = "close long"%string ->
  (i < length (executed_price s))%nat ->
  store_executed_price s b a i
  = Ok (set_executed_price (<[i := Filled b]> (executed_price s)) s).
Proof.
  intros Hc Hi. unfold store_executed_price.
  destruct Hc as [-> | ->]; simpl; rewrite list_set_ok by assumption;
    reflexivity.
Qed.

Lemma saveStats_ok s PL i n :
  sized n s -> (i < n)%nat ->
  prev_traded_position s = 0%Z \/ prev_traded_position s = 1%Z
    \/ prev_traded_position s = (-1)%Z ->
  saveStats s PL i = Ok (saved s PL i).
Proof.
  intros (H1 & H2 & H3 & H4 & _) Hi Hp. unfold saveStats, saved.
  assert (Ha : list_set (action s) i (current_action s)
               = Ok (<[i := current_action s]> (action s)))
    by (apply list_set_ok; lia).
  destruct Hp as [Hp | [Hp | Hp]]; rewrite Hp; simpl; rewrite Ha; simpl;
    rewrite !list_set_ok by lia; simpl; rewrite Hp; reflexivity.
Qed.

Lemma closeTrade_ok s PL b a i :
  (i < length (executed_price s))%nat ->
  prev_traded_position s = 1%Z \/ prev_traded_position s = (-1)%Z ->
  exists s',
    closeTrade s PL b a i = Ok s' /\
    executed_price s'
    = <[i := Filled (if (prev_traded_position s =? 1)%Z then b else a)]>
        (executed_price s) /\
    current_action s'
    = (if (prev_traded_position s =? 1)%Z
       then "close long" else "close short")%string.
Proof.
  intros Hi Hp. unfold closeTrade. simpl.
  destruct Hp as [Hp | Hp]; rewrite Hp; simpl.
  - rewrite store_executed_price_bid by (simpl; auto). simpl.
    repeat match goal with
           | |- context [if ?c then _ else _] => destruct c
           end; eexists; split; reflexivity || (split; reflexivity).
  - rewrite store_executed_price_ask by (simpl; auto). simpl.
    repeat match goal with
           | |- context [if ?c then _ else _] => destruct c
           end; eexists; split; reflexivity || (split; reflexivity).
Qed.

Lemma same_columns_sized s s' n :
  same_columns s s' -> sized n s -> sized n s'.
Proof. unfold same_columns, sized. intuition congruence. Qed.

(** An explicit close: [sell] while long, [buy] while short. *)
Lemma sell_closes_long s b a i n entry :
  sized n s -> (i < n)%nat ->
  prev_traded_position s = 1%Z -> prev_traded_price s = Some entry ->
  exists s',
    sell s b a i = Ok s' /\
    closed_with s s' (bandPL s (inject_Z 1 * (b - entry))) /\
    executed_price s' !! i = Some (Filled b) /\
    action s' !! i = Some "close long"%string.
Proof.
  intros Hs Hi Hp He.
  set (s0 := set_current_action "close long" s).
  set (PL := bandPL s (inject_Z 1 * (b - entry))).
  assert (Hs0 : sized n s0) by exact Hs.
  destruct (closeTrade_ok s0 PL b a i) as (s1 & H1 & Hex & Hca).
  { destruct Hs0 as (_ & _ & _ & _ & -> & _). exact Hi. }
  { left. exact Hp. }
  destruct (closeTrade_eff _ _ _ _ _ _ H1) as (Hcw & Hcol).
  pose proof (same_columns_sized _ _ _ Hcol Hs0) as Hs1.
  assert (Hp1 : prev_traded_position s1 = 0%Z) by apply Hcw.
  simpl in Hex, Hca. rewrite Hp in Hex, Hca. simpl in Hex, Hca.
  exists (set_executed_price (<[i := Filled b]> (executed_price (saved s1 PL i)))
            (saved s1 PL i)).
  split.
  - unfold sell. rewrite Hp. simpl. rewrite He. simpl. rewrite Hp.
    change (bandPL (set_current_action "close long" s)
              (inject_Z 1 * (b - entry))) with PL.
    fold s0. rewrite H1. simpl.
    rewrite (saveStats_ok s1 PL i n) by auto. simpl.
    rewrite store_executed_price_bid; simpl; [reflexivity | auto |].
    destruct Hs1 as (_ & _ & _ & _ & -> & _). exact Hi.
  - split; [exact Hcw|]. simpl. rewrite Hca.
    destruct Hs1 as (Ha & _ & _ & _ & Hx & _).
    split; apply list_lookup_insert_eq; lia.
Qed.

Lemma buy_closes_short s b a i n entry :
  sized n s -> (i < n)%nat ->
  prev_traded_position s = (-1)%Z -> prev_traded_price s = Some entry ->
  exists s',
    buy s b a i = Ok s' /\
    closed_with s s' (bandPL s (inject_Z (-1) * (a - entry))) /\
    executed_price s' !! i = Some (Filled a) /\
    action s' !! i = Some "close short"%string.
Proof.
  intros Hs Hi Hp He.
  set (s0 := set_current_action "close short" s).
  set (PL := bandPL s (inject_Z (-1) * (a - entry))).
  assert (Hs0 : sized n s0) by exact Hs.
  destruct (closeTrade_ok s0 PL b a i) as (s1 & H1 & Hex & Hca).
  { destruct Hs0 as (_ & _ & _ & _ & -> & _). exact Hi. }
  { right. exact Hp. }
  destruct (closeTrade_eff _ _ _ _ _ _ H1) as (Hcw & Hcol).
  pose proof (same_columns_sized _ _ _ Hcol Hs0) as Hs1.
  assert (Hp1 : prev_traded_position s1 = 0%Z) by apply Hcw.
  simpl in Hex, Hca. rewrite Hp in Hex, Hca. simpl in Hex, Hca.
  exists (set_executed_price (<[i := Filled a]> (executed_price (saved s1 PL i)))
            (saved s1 PL i)).
  split.
  - unfold buy. rewrite Hp. simpl. rewrite He. simpl. rewrite Hp.
    change (bandPL (set_current_action "close short" s)
              (inject_Z (-1) * (a - entry))) with PL.
    fold s0. rewrite H1. simpl.
    rewrite (saveStats_ok s1 PL i n) by auto. simpl.
    rewrite store_executed_price_ask; simpl; [reflexivity | auto |].
    destruct Hs1 as (_ & _ & _ & _ & -> & _). exact Hi.
  - split; [exact Hcw|]. simpl. rewrite Hca.
    destruct Hs1 as (Ha & _ & _ & _ & Hx & _).
    split; apply list_lookup_insert_eq; lia.
Qed.

(** An open from flat, as one explicit state. *)
Lemma buy_opens s b a i n :
  sized n s -> (i < n)%nat -> prev_traded_position s = 0%Z ->
  buy s b a i
  = Ok (set_executed_price (<[i := Filled a]> (executed_price s))
          (saved (opened s 1 a (a + stop_loss s) (a + take_profit s) "buy"
                    (<[i := Filled (a + stop_loss s)]> (stop_loss_px_list s))
                    (<[i := Filled (take_profit s)]>
                       (take_profit_px_list s)))
             0 i)).
Proof.
  intros Hs Hi Hp. pose proof Hs as (H1 & H2 & H3 & H4 & H5 & H6 & H7).
  unfold buy. rewrite Hp. simpl.
  rewrite !list_set_ok by lia. simpl.
  fold (opened s 1 a (a + stop_loss s) (a + take_profit s) "buy"
          (<[i := Filled (a + stop_loss s)]> (stop_loss_px_list s))
          (<[i := Filled (take_profit s)]> (take_profit_px_list s))).
  rewrite (saveStats_ok _ 0 i n); simpl; auto.
  - rewrite store_executed_price_ask; simpl; [reflexivity | auto | lia].
  - unfold sized; simpl. rewrite !length_insert. auto 10.
Qed.

Lemma sell_opens s b a i n :
  sized n s -> (i < n)%nat -> prev_traded_position s = 0%Z ->
  sell s b a i
  = Ok (set_executed_price (<[i := Filled b]> (executed_price s))
          (saved (opened s (-1) b (b - stop_loss s) (b - take_profit s)
                    "short"
                    (<[i := Filled (b - stop_loss s)]> (stop_loss_px_list s))
                    (<[i := Filled (b - take_profit s)]>
                       (take_profit_px_list s)))
             0 i)).
Proof.
  intros Hs Hi Hp. pose proof Hs as (H1 & H2 & H3 & H4 & H5 & H6 & H7).
  unfold sell. rewrite Hp. simpl.
  rewrite !list_set_ok by lia. simpl.
  fold (opened s (-1) b (b - stop_loss s) (b - take_profit s) "short"
          (<[i := Filled (b - stop_loss s)]> (stop_loss_px_list s))
          (<[i := Filled (b - take_profit s)]> (take_profit_px_list s))).
  rewrite (saveStats_ok _ 0 i n); simpl; auto.
  - rewrite store_executed_price_bid; simpl; [reflexivity | auto | lia].
  - unfold sized; simpl. rewrite !length_insert. auto 10.
Qed.

(** The closing branches of [checkStopConditions]. *)
Lemma close_and_save_ok s PL b a i n :
  sized n s -> (i < n)%nat ->
  prev_traded_position s = 1%Z \/ prev_traded_position s = (-1)%Z ->
  exists s',
    close_and_save s PL b a i = Ok s' /\
    closed_with s s' PL /\
    same_level_columns s s' /\
    executed_price s' !! i
    = Some (Filled (if (prev_traded_position s =? 1)%Z then b else a)) /\
    action s' !! i
    = Some (if (prev_traded_position s =? 1)%Z
            then "close long" else "close short")%string /\
    arr_PL s' !! i = Some (Filled PL).
Proof.
  intros Hs Hi Hp.
  set (s0 := set_current_action "hold" s).
  assert (Hs0 : sized n s0) by exact Hs.
  destruct (closeTrade_ok s0 PL b a i) as (s1 & H1 & Hex & Hca).
  { destruct Hs0 as (_ & _ & _ & _ & -> & _). exact Hi. }
  { exact Hp. }
  destruct (closeTrade_eff _ _ _ _ _ _ H1) as (Hcw & Hcol).
  pose proof (same_columns_sized _ _ _ Hcol Hs0) as Hs1.
  assert (Hp1 : prev_traded_position s1 = 0%Z) by apply Hcw.
  simpl in Hex, Hca.
  exists (saved s1 PL i). split.
  - unfold close_and_save. fold s0. rewrite H1. simpl.
    apply (saveStats_ok s1 PL i n); auto.
  - split; [exact Hcw|].
    destruct Hs1 as (Ha & _ & Hpl & _ & Hx & _).
    unfold same_level_columns. simpl. rewrite Hex, Hca.
    destruct Hcol as (_ & _ & _ & _ & Hl1 & Hl2 & _).
    destruct Hs as (_ & _ & _ & _ & Hx0 & _).
    repeat split; try assumption;
      apply list_lookup_insert_eq; rewrite ?length_insert; lia.
Qed.

Lemma check_long_eq s b a i entry tp :
  prev_traded_position s = 1%Z ->
  prev_traded_price s = Some entry ->
  take_profit_px s = Some tp ->
  checkStopConditions s b a i
  = if Qleb tp b then
      close_and_save s (bandPL s (inject_Z 1 * (b - entry))) b a i
    else
      call sl := get_attr (stop_loss_px s) in
      if Qgeb sl b then
        close_and_save s (bandPL s (inject_Z 1 * (b - entry))) b a i
      else
        saveStats (set_current_action "hold" s) (inject_Z 1 * (b - entry)) i.
Proof.
  intros Hp He Ht. unfold checkStopConditions. simpl.
  rewrite Hp, He, Ht. reflexivity.
Qed.

Lemma check_short_eq s b a i entry tp :
  prev_traded_position s = (-1)%Z ->
  prev_traded_price s = Some entry ->
  take_profit_px s = Some tp ->
  checkStopConditions s b a i
  = if Qgeb tp a then
      close_and_save s (bandPL s (inject_Z (-1) * (a - entry))) b a i
    else
      call sl := get_attr (stop_loss_px s) in
      if Qleb sl a then
        close_and_save s (bandPL s (inject_Z (-1) * (a - entry))) b a i
      else
        saveStats (set_current_action "hold" s)
          (inject_Z (-1) * (a - entry)) i.
Proof.
  intros Hp He Ht. unfold checkStopConditions. simpl.
  rewrite Hp, He, Ht. reflexivity.
Qed.

(** A close does not look at the stop-loss level it is about to clear. *)
Lemma close_and_save_forgets_stop s v PL b a i :
  prev_traded_position s = 1%Z \/ prev_traded_position s = (-1)%Z ->
  close_and_save (set_stop_loss_px v s) PL b a i
  = close_and_save s PL b a i.
Proof.
  intros Hp. unfold close_and_save, closeTrade, store_executed_price.
  simpl.
  destruct Hp as [Hp | Hp]; rewrite Hp; simpl;
    destruct (list_set (executed_price s) i _); simpl; try reflexivity;
    repeat match goal with
           | |- context [if ?c then _ else _] => destruct c
           end; reflexivity.
Qed.

(** * Stop and target evaluation on an open position *)

Lemma rbind_ok {A B : Type} (a : A) (k : A -> result B) :
  rbind (Ok a) k = k a.
Proof. reflexivity. Qed.

Lemma hold_and_save_ok s PL i n :
  sized n s -> (i < n)%nat ->
  prev_traded_position s = 1%Z \/ prev_traded_position s = (-1)%Z ->
  exists s',
    saveStats (set_current_action "hold" s) PL i = Ok s' /\
    held s s' /\
    same_level_columns s s' /\
    executed_price s' = executed_price s /\
    action s' !! i = Some "hold"%string /\
    arr_PL s' !! i = Some (Filled PL).
Proof.
  intros Hs Hi Hp.
  exists (saved (set_current_action "hold" s) PL i). split.
  - apply (saveStats_ok _ PL i n); simpl; auto.
  - destruct Hs as (Ha & _ & Hpl & _).
    unfold held, same_level_columns. simpl.
    repeat split; apply list_lookup_insert_eq; lia.
Qed.

Lemma check_long s b a i n entry tp sl :
  sized n s -> (i < n)%nat ->
  prev_traded_position s = 1%Z ->
  prev_traded_price s = Some entry ->
  take_profit_px s = Some tp ->
  stop_loss_px s = Some sl ->
  exists s',
    checkStopConditions s b a i = Ok s' /\
    same_level_columns s s' /\
    (tp <= b \/ b <= sl ->
       closed_with s s' (bandPL s (inject_Z 1 * (b - entry))) /\
       executed_price s' !! i = Some (Filled b) /\
       action s' !! i = Some "close long"%string) /\
    (~ tp <= b -> ~ b <= sl ->
       held s s' /\
       executed_price s' = executed_price s /\
       action s' !! i = Some "hold"%string /\
       arr_PL s' !! i = Some (Filled (inject_Z 1 * (b - entry)))).
Proof.
  intros Hs Hi Hp He Ht Hl.
  rewrite (check_long_eq s b a i entry tp Hp He Ht), Hl.
  unfold get_attr. rewrite rbind_ok.
  destruct (close_and_save_ok s (bandPL s (inject_Z 1 * (b - entry)))
              b a i n Hs Hi (or_introl Hp))
    as (sc & Hc & Hcw & Hlv & Hex & Hac & _).
  rewrite Hp in Hex, Hac. simpl in Hex, Hac.
  destruct (hold_and_save_ok s (inject_Z 1 * (b - entry)) i n Hs Hi
              (or_introl Hp))
    as (sh & Hh & Hheld & Hlvh & Hexh & Hach & Hplh).
  destruct (Qleb tp b) eqn:E1.
  - apply Qleb_le in E1. exists sc. split; [assumption|]. split; [assumption|].
      split; [auto | intros; exfalso; lra].
  - apply Qleb_gt in E1. destruct (Qgeb sl b) eqn:E2.
    + apply Qgeb_ge in E2. exists sc. split; [assumption|]. split; [assumption|].
      split; [auto | intros; exfalso; lra].
    + apply Qgeb_lt in E2. exists sh.
      split; [assumption|]. split; [assumption|].
      split; [intros [H | H]; exfalso; lra | auto].
Qed.

Lemma check_short s b a i n entry tp sl :
  sized n s -> (i < n)%nat ->
  prev_traded_position s = (-1)%Z ->
  prev_traded_price s = Some entry ->
  take_profit_px s = Some tp ->
  stop_loss_px s = Some sl ->
  exists s',
    checkStopConditions s b a i = Ok s' /\
    same_level_columns s s' /\
    (a <= tp \/ sl <= a ->
       closed_with s s' (bandPL s (inject_Z (-1) * (a - entry))) /\
       executed_price s' !! i = Some (Filled a) /\
       action s' !! i = Some "close short"%string) /\
    (~ a <= tp -> ~ sl <= a ->
       held s s' /\
       executed_price s' = executed_price s /\
       action s' !! i = Some "hold"%string /\
       arr_PL s' !! i = Some (Filled (inject_Z (-1) * (a - entry)))).
Proof.
  intros Hs Hi Hp He Ht Hl.
  rewrite (check_short_eq s b a i entry tp Hp He Ht), Hl.
  unfold get_attr. rewrite rbind_ok.
  destruct (close_and_save_ok s (bandPL s (inject_Z (-1) * (a - entry)))
              b a i n Hs Hi (or_intror Hp))
    as (sc & Hc & Hcw & Hlv & Hex & Hac & _).
  rewrite Hp in Hex, Hac. simpl in Hex, Hac.
  destruct (hold_and_save_ok s (inject_Z (-1) * (a - entry)) i n Hs Hi
              (or_intror Hp))
    as (sh & Hh & Hheld & Hlvh & Hexh & Hach & Hplh).
  destruct (Qgeb tp a) eqn:E1.
  - apply Qgeb_ge in E1. exists sc. split; [assumption|]. split; [assumption|].
      split; [auto | intros; exfalso; lra].
  - apply Qgeb_lt in E1. destruct (Qleb sl a) eqn:E2.
    + apply Qleb_le in E2. exists sc. split; [assumption|]. split; [assumption|].
      split; [auto | intros; exfalso; lra].
    + apply Qleb_gt in E2. exists sh.
      split; [assumption|]. split; [assumption|].
      split; [intros [H | H]; exfalso; lra | auto].
Qed.

(** * The transition table *)

(** C1. From flat a buy opens a long executed at the ask and a sell opens a
    short executed at the bid; a sell while long closes at the bid and a buy
    while short closes at the ask; a buy while long and a sell while short
    are the stop and target check of the open position, which either holds
    it with its entry price and levels unchanged or closes it. *)
Theorem transition_table (s : signalHandler) (b a : Q) (i n : nat)
    (Hs : sized n s) (Hi : (i < n)%nat) (Hc : coherent s) :
  (prev_traded_position s = 0%Z ->
     (exists s', buy s b a i = Ok s' /\
        prev_traded_position s' = 1%Z /\
        prev_traded_price s' = Some a /\
        executed_price s' !! i = Some (Filled a) /\
        action s' !! i = Some "buy"%string) /\
     (exists s', sell s b a i = Ok s' /\
        prev_traded_position s' = (-1)%Z /\
        prev_traded_price s' = Some b /\
        executed_price s' !! i = Some (Filled b) /\
        action s' !! i = Some "short"%string)) /\
  (prev_traded_position s = 1%Z ->
     (exists s', sell s b a i = Ok s' /\
        prev_traded_position s' = 0%Z /\
        executed_price s' !! i = Some (Filled b) /\
        action s' !! i = Some "close long"%string) /\
     buy s b a i = checkStopConditions s b a i /\
     (exists s', buy s b a i = Ok s' /\
        ((held s s' /\ action s' !! i = Some "hold"%string) \/
         (prev_traded_position s' = 0%Z /\
          action s' !! i = Some "close long"%string)))) /\
  (prev_traded_position s = (-1)%Z ->
     (exists s', buy s b a i = Ok s' /\
        prev_traded_position s' = 0%Z /\
        executed_price s' !! i = Some (Filled a) /\
        action s' !! i = Some "close short"%string) /\
     sell s b a i = checkStopConditions s b a i /\
     (exists s', sell s b a i = Ok s' /\
        ((held s s' /\ action s' !! i = Some "hold"%string) \/
         (prev_traded_position s' = 0%Z /\
          action s' !! i = Some "close short"%string)))).
Proof.
  pose proof Hs as (Ha & _ & _ & _ & Hx & _).
  split; [|split]; intros Hp.
  - split.
    + eexists. split; [apply (buy_opens s b a i n); assumption|].
      simpl. repeat split; apply list_lookup_insert_eq; lia.
    + eexists. split; [apply (sell_opens s b a i n); assumption|].
      simpl. repeat split; apply list_lookup_insert_eq; lia.
  - destruct Hc as [(Hp0 & _) | (_ & (e & He) & (sl & Hl) & (tp & Ht))];
      [congruence|].
    assert (Hbuy : buy s b a i = checkStopConditions s b a i).
    { unfold buy. rewrite Hp. reflexivity. }
    split; [|split; [exact Hbuy|]].
    + destruct (sell_closes_long s b a i n e Hs Hi Hp He)
        as (s' & H1 & Hcw & H2 & H3).
      exists s'. repeat split; try assumption. apply Hcw.
    + rewrite Hbuy.
      destruct (check_long s b a i n e tp sl Hs Hi Hp He Ht Hl)
        as (s' & H1 & _ & Hclose & Hhold).
      exists s'. split; [assumption|].
      destruct (Qlt_le_dec b tp) as [H2 | H2];
        [destruct (Qlt_le_dec sl b) as [H3 | H3]|].
      * left. destruct Hhold as (? & _ & ? & _); [lra | lra | auto].
      * right. destruct Hclose as (Hcw & _ & ?); [auto|].
        split; [apply Hcw | assumption].
      * right. destruct Hclose as (Hcw & _ & ?); [auto|].
        split; [apply Hcw | assumption].
  - destruct Hc as [(Hp0 & _) | (_ & (e & He) & (sl & Hl) & (tp & Ht))];
      [congruence|].
    assert (Hsell : sell s b a i = checkStopConditions s b a i).
    { unfold sell. rewrite Hp. reflexivity. }
    split; [|split; [exact Hsell|]].
    + destruct (buy_closes_short s b a i n e Hs Hi Hp He)
        as (s' & H1 & Hcw & H2 & H3).
      exists s'. repeat split; try assumption. apply Hcw.
    + rewrite Hsell.
      destruct (check_short s b a i n e tp sl Hs Hi Hp He Ht Hl)
        as (s' & H1 & _ & Hclose & Hhold).
      exists s'. split; [assumption|].
      destruct (Qlt_le_dec tp a) as [H2 | H2];
        [destruct (Qlt_le_dec a sl) as [H3 | H3]|].
      * left. destruct Hhold as (? & _ & ? & _); [lra | lra | auto].
      * right. destruct Hclose as (Hcw & _ & ?); [auto|].
        split; [apply Hcw | assumption].
      * right. destruct Hclose as (Hcw & _ & ?); [auto|].
        split; [apply Hcw | assumption].
Qed.

Lemma transition_table_witness :
  sized 5 demo_long /\ (1 < 5)%nat /\ coherent demo_long /\
  exists s', sell demo_long (11070 # 10000) (11071 # 10000) 1 = Ok s' /\
             prev_traded_position s' = 0%Z /\
             executed_price s' !! 1%nat = Some (Filled (11070 # 10000)).
Proof.
  assert (H1 : sized 5 demo_long) by (vm_compute; repeat split; reflexivity).
  assert (H2 : (1 < 5)%nat) by lia.
  assert (H3 : coherent demo_long).
  { right. split; [left; reflexivity|].
    repeat split; eexists; vm_compute; reflexivity. }
  repeat split; try assumption.
  destruct (transition_table demo_long (11070 # 10000) (11071 # 10000)
              1 5 H1 H2 H3) as (_ & Hlong & _).
  destruct (Hlong eq_refl) as ((s' & Hsell & Hp & Hx & _) & _).
  exists s'. auto.
Defined.

(** * Closing a trade *)

(** C2. Every close, whether by the opposing signal or by a breach of the
    stop or the target, takes the raw profit as the side sign times the
    difference of the closing price (bid for a long, ask for a short) and
    the entry price, bands it, adds the banded profit to the cumulative
    profit, counts one more trade, classifies it by the sign of the profit
    rounded to five decimals, and leaves the position flat with the entry
    price and both levels cleared. *)
Theorem close_books_the_trade (s : signalHandler) (b a : Q) (i n : nat)
    (entry tp sl : Q)
    (Hs : sized n s) (Hi : (i < n)%nat)
    (He : prev_traded_price s = Some entry)
    (Ht : take_profit_px s = Some tp)
    (Hl : stop_loss_px s = Some sl) :
  (prev_traded_position s = 1%Z ->
     let net := bandPL s (inject_Z 1 * (b - entry)) in
     (exists s', sell s b a i = Ok s' /\ closed_with s s' net) /\
     (tp <= b \/ b <= sl ->
      exists s', checkStopConditions s b a i = Ok s' /\
                 closed_with s s' net)) /\
  (prev_traded_position s = (-1)%Z ->
     let net := bandPL s (inject_Z (-1) * (a - entry)) in
     (exists s', buy s b a i = Ok s' /\ closed_with s s' net) /\
     (a <= tp \/ sl <= a ->
      exists s', checkStopConditions s b a i = Ok s' /\
                 closed_with s s' net)).
Proof.
  split; intros Hp net; subst net; split.
  - destruct (sell_closes_long s b a i n entry Hs Hi Hp He)
      as (s' & H1 & Hcw & _).
    eauto.
  - intros Hbreach.
    destruct (check_long s b a i n entry tp sl Hs Hi Hp He Ht Hl)
      as (s' & H1 & _ & Hclose & _).
    exists s'. split; [assumption | apply Hclose; assumption].
  - destruct (buy_closes_short s b a i n entry Hs Hi Hp He)
      as (s' & H1 & Hcw & _).
    eauto.
  - intros Hbreach.
    destruct (check_short s b a i n entry tp sl Hs Hi Hp He Ht Hl)
      as (s' & H1 & _ & Hclose & _).
    exists s'. split; [assumption | apply Hclose; assumption].
Qed.

Lemma close_books_the_trade_witness :
  exists s',
    sell demo_long (11070 # 10000) (11071 # 10000) 4 = Ok s' /\
    closed_with demo_long s'
      (bandPL demo_long
         (inject_Z 1 * ((11070 # 10000) - (11050 # 10000)))).
Proof.
  assert (H1 : sized 5 demo_long) by (vm_compute; repeat split; reflexivity).
  assert (H2 : (4 < 5)%nat) by lia.
  destruct (close_books_the_trade demo_long (11070 # 10000)
              (11071 # 10000) 4 5 (11050 # 10000)
              ((11050 # 10000) + (10 # 10000))
              ((11050 # 10000) + - (10 # 10000)) H1 H2
              eq_refl eq_refl eq_refl) as (Hlong & _).
  destruct (Hlong eq_refl) as (Hsell & _). exact Hsell.
Defined.

(** * Stop and target precedence *)

(** C4. On a long the target is breached when the bid is at or above the
    take-profit level and the stop when the bid is at or below the stop-loss
    level; on a short the target is breached when the ask is at or below the
    take-profit level and the stop when the ask is at or above the stop-loss
    level.  The target is tested first: when it is breached the position
    closes whatever the stop-loss level is, and the result does not depend
    on that level.  When neither is breached the position is held. *)
Theorem stop_target_evaluation (s : signalHandler) (b a : Q) (i n : nat)
    (entry tp sl : Q)
    (Hs : sized n s) (Hi : (i < n)%nat)
    (He : prev_traded_price s = Some entry)
    (Ht : take_profit_px s = Some tp)
    (Hl : stop_loss_px s = Some sl) :
  (prev_traded_position s = 1%Z ->
     exists s',
       checkStopConditions s b a i = Ok s' /\
       (tp <= b ->
          closed_with s s' (bandPL s (inject_Z 1 * (b - entry))) /\
          action s' !! i = Some "close long"%string /\
          forall v, checkStopConditions (set_stop_loss_px v s) b a i
                    = Ok s') /\
       (~ tp <= b -> b <= sl ->
          closed_with s s' (bandPL s (inject_Z 1 * (b - entry))) /\
          action s' !! i = Some "close long"%string) /\
       (~ tp <= b -> ~ b <= sl ->
          held s s' /\ action s' !! i = Some "hold"%string)) /\
  (prev_traded_position s = (-1)%Z ->
     exists s',
       checkStopConditions s b a i = Ok s' /\
       (a <= tp ->
          closed_with s s' (bandPL s (inject_Z (-1) * (a - entry))) /\
          action s' !! i = Some "close short"%string /\
          forall v, checkStopConditions (set_stop_loss_px v s) b a i
                    = Ok s') /\
       (~ a <= tp -> sl <= a ->
          closed_with s s' (bandPL s (inject_Z (-1) * (a - entry))) /\
          action s' !! i = Some "close short"%string) /\
       (~ a <= tp -> ~ sl <= a ->
          held s s' /\ action s' !! i = Some "hold"%string)).
Proof.
  split; intros Hp.
  - destruct (check_long s b a i n entry tp sl Hs Hi Hp He Ht Hl)
      as (s' & H1 & _ & Hclose & Hhold).
    exists s'. split; [assumption|]. split; [|split].
    + intros Hb. destruct Hclose as (Hcw & _ & Hact); [auto|].
      split; [assumption|]. split; [assumption|].
      intros v.
      rewrite (check_long_eq (set_stop_loss_px v s) b a i entry tp)
        by assumption.
      rewrite (check_long_eq s b a i entry tp) in H1 by assumption.
      apply Qleb_le in Hb. rewrite Hb in *.
      rewrite close_and_save_forgets_stop by auto. exact H1.
    + intros _ Hb. destruct Hclose as (Hcw & _ & Hact); auto.
    + intros Hn1 Hn2. destruct (Hhold Hn1 Hn2) as (? & _ & ? & _). auto.
  - destruct (check_short s b a i n entry tp sl Hs Hi Hp He Ht Hl)
      as (s' & H1 & _ & Hclose & Hhold).
    exists s'. split; [assumption|]. split; [|split].
    + intros Hb. destruct Hclose as (Hcw & _ & Hact); [auto|].
      split; [assumption|]. split; [assumption|].
      intros v.
      rewrite (check_short_eq (set_stop_loss_px v s) b a i entry tp)
        by assumption.
      rewrite (check_short_eq s b a i entry tp) in H1 by assumption.
      apply Qgeb_ge in Hb. rewrite Hb in *.
      rewrite close_and_save_forgets_stop by auto. exact H1.
    + intros _ Hb. destruct Hclose as (Hcw & _ & Hact); auto.
    + intros Hn1 Hn2. destruct (Hhold Hn1 Hn2) as (? & _ & ? & _). auto.
Qed.

Lemma stop_target_evaluation_witness :
  exists s',
    checkStopConditions demo_long (11061 # 10000) (11062 # 10000) 1 = Ok s' /\
    action s' !! 1%nat = Some "close long"%string.
Proof.
  assert (H1 : sized 5 demo_long) by (vm_compute; repeat split; reflexivity).
  assert (H2 : (1 < 5)%nat) by lia.
  destruct (stop_target_evaluation demo_long (11061 # 10000)
              (11062 # 10000) 1 5 (11050 # 10000)
              ((11050 # 10000) + (10 # 10000))
              ((11050 # 10000) + - (10 # 10000)) H1 H2
              eq_refl eq_refl eq_refl) as (Hlong & _).
  destruct (Hlong eq_refl) as (s' & Hcheck & Htarget & _).
  exists s'. split; [exact Hcheck|].
  apply Htarget. apply Qle_bool_iff. vm_compute. reflexivity.
Defined.

(** * Opening a position *)

(** C7. An open from flat records the execution price as the entry price,
    the ask for a long and the bid for a short, sets each level to the entry
    price plus the side sign times the offset, and records a profit of zero
    for the bar. *)
Theorem open_sets_entry_and_levels (s : signalHandler) (b a : Q) (i n : nat)
    (Hs : sized n s) (Hi : (i < n)%nat)
    (Hp : prev_traded_position s = 0%Z) :
  (exists s' e sl tp,
     buy s b a i = Ok s' /\
     prev_traded_position s' = 1%Z /\
     prev_traded_price s' = Some e /\ e = a /\
     executed_price s' !! i = Some (Filled e) /\
     stop_loss_px s' = Some sl /\
     take_profit_px s' = Some tp /\
     sl == e + inject_Z 1 * stop_loss s /\
     tp == e + inject_Z 1 * take_profit s /\
     arr_PL s' !! i = Some (Filled 0)) /\
  (exists s' e sl tp,
     sell s b a i = Ok s' /\
     prev_traded_position s' = (-1)%Z /\
     prev_traded_price s' = Some e /\ e = b /\
     executed_price s' !! i = Some (Filled e) /\
     stop_loss_px s' = Some sl /\
     take_profit_px s' = Some tp /\
     sl == e + inject_Z (-1) * stop_loss s /\
     tp == e + inject_Z (-1) * take_profit s /\
     arr_PL s' !! i = Some (Filled 0)).
Proof.
  pose proof Hs as (_ & _ & Hpl & _ & Hx & _).
  split.
  - eexists _, a, (a + stop_loss s), (a + take_profit s).
    split; [apply (buy_opens s b a i n); assumption|].
    simpl. repeat split;
      first [reflexivity
            | apply list_lookup_insert_eq; lia
            | unfold inject_Z; ring].
  - eexists _, b, (b - stop_loss s), (b - take_profit s).
    split; [apply (sell_opens s b a i n); assumption|].
    simpl. repeat split;
      first [reflexivity
            | apply list_lookup_insert_eq; lia
            | unfold inject_Z; ring].
Qed.

Lemma open_sets_entry_and_levels_witness :
  exists s',
    buy demo (11049 # 10000) (11050 # 10000) 0 = Ok s' /\
    prev_traded_price s' = Some (11050 # 10000) /\
    arr_PL s' !! 0%nat = Some (Filled 0).
Proof.
  assert (H1 : sized 5 demo) by (vm_compute; repeat split; reflexivity).
  assert (H2 : (0 < 5)%nat) by lia.
  destruct (open_sets_entry_and_levels demo (11049 # 10000)
              (11050 # 10000) 0 5 H1 H2 eq_refl)
    as ((s' & e & sl & tp & Hbuy & _ & He & -> & _ & _ & _ & _ & _ & Hpl)
        & _).
  exists s'. auto.
Defined.

(** * The level columns of the history *)

Lemma check_same_level_columns s b a i s' :
  checkStopConditions s b a i = Ok s' -> same_level_columns s s'.
Proof.
  intros H. exec_cases H; effects;
    unfold same_level_columns, same_columns in *; simpl in *;
    intuition congruence.
Qed.

Lemma buy_same_level_columns s b a i s' :
  prev_traded_position s <> 0%Z ->
  buy s b a i = Ok s' -> same_level_columns s s'.
Proof.
  intros Hp H. exec_cases H; try contradiction; effects;
    unfold same_level_columns, same_columns in *; simpl in *;
    intuition congruence.
Qed.

Lemma sell_same_level_columns s b a i s' :
  prev_traded_position s <> 0%Z ->
  sell s b a i = Ok s' -> same_level_columns s s'.
Proof.
  intros Hp H. exec_cases H; try contradiction; effects;
    unfold same_level_columns, same_columns in *; simpl in *;
    intuition congruence.
Qed.

(** The claim C5 fails on a long position opened on bar 0 and held on
    bar 1: the take-profit cell of bar 0 holds the offset, not the level,
    and the level cells of bar 1 are never assigned. *)
Lemma levels_not_recorded :
  exists s2,
    buy demo (11049 # 10000) (11050 # 10000) 0 = Ok demo_long /\
    checkStopConditions demo_long (11051 # 10000) (11052 # 10000) 1
    = Ok s2 /\
    prev_traded_position s2 = 1%Z /\
    take_profit_px_list demo_long !! 0%nat = Some (Filled (10 # 10000)) /\
    take_profit_px demo_long = Some ((11050 # 10000) + (10 # 10000)) /\
    stop_loss_px_list s2 !! 1%nat = Some Blank /\
    take_profit_px_list s2 !! 1%nat = Some Blank /\
    ~ bar_records_levels demo_long 0 /\
    ~ bar_records_levels s2 1.
Proof.
  eexists. split; [vm_compute; reflexivity|].
  split; [vm_compute; reflexivity|].
  do 5 (split; [vm_compute; reflexivity|]). split.
  - intros (c1 & c2 & _ & H2 & _ & H4).
    vm_compute in H2. injection H2 as <-.
    destruct H4 as (v & q & Hv & Hq & Heq).
    vm_compute in Hv. injection Hv as <-. injection Hq as <-.
    vm_compute in Heq. discriminate Heq.
  - intros (c1 & c2 & H1 & _ & H3 & _).
    vm_compute in H1. injection H1 as <-.
    destruct H3 as (v & q & _ & Hq & _). discriminate Hq.
Qed.

(** C5, amended.  The level columns are assigned only by the call that
    opens a position, at the index of that bar: a short open records both
    active levels and a long open records the active stop-loss level.
    Every other call, a hold, a same-direction signal or a close, leaves
    both columns as they were. *)
Theorem level_columns_written_on_open (s : signalHandler) (b a : Q)
    (i n : nat) (Hs : sized n s) (Hi : (i < n)%nat) :
  (prev_traded_position s = 0%Z ->
     (exists s', sell s b a i = Ok s' /\ bar_records_levels s' i) /\
     (exists s' sl, buy s b a i = Ok s' /\
        stop_loss_px s' = Some sl /\
        stop_loss_px_list s' !! i = Some (Filled sl))) /\
  (forall s', checkStopConditions s b a i = Ok s' ->
     same_level_columns s s') /\
  (prev_traded_position s <> 0%Z ->
   forall s', buy s b a i = Ok s' \/ sell s b a i = Ok s' ->
     same_level_columns s s').
Proof.
  pose proof Hs as (_ & _ & _ & _ & _ & Hl1 & Hl2).
  split; [|split].
  - intros Hp. split.
    + eexists. split; [apply (sell_opens s b a i n); assumption|].
      exists (Filled (b - stop_loss s)), (Filled (b - take_profit s)).
      simpl.
      split; [apply list_lookup_insert_eq; lia|].
      split; [apply list_lookup_insert_eq; lia|].
      unfold level_recorded. simpl.
      split; do 2 eexists; repeat split; reflexivity.
    + eexists _, _. split; [apply (buy_opens s b a i n); assumption|].
      simpl. split; [reflexivity|]. apply list_lookup_insert_eq; lia.
  - intros s'. apply check_same_level_columns.
  - intros Hp s' [H | H].
    + eapply buy_same_level_columns; eassumption.
    + eapply sell_same_level_columns; eassumption.
Qed.

Lemma level_columns_written_on_open_witness :
  exists s', sell demo (11049 # 10000) (11050 # 10000) 0 = Ok s' /\
             bar_records_levels s' 0.
Proof.
  assert (H1 : sized 5 demo) by (vm_compute; repeat split; reflexivity).
  assert (H2 : (0 < 5)%nat) by lia.
  destruct (level_columns_written_on_open demo (11049 # 10000)
              (11050 # 10000) 0 5 H1 H2) as (Hflat & _).
  destruct (Hflat eq_refl) as (Hsell & _). exact Hsell.
Defined.

(** * Invariants of every run *)

Lemma init_sized sl tp g c n cur fr : sized n (init sl tp g c n cur fr).
Proof. unfold sized, init; simpl. rewrite !length_replicate. auto 10. Qed.

Lemma init_coherent sl tp g c n cur fr : coherent (init sl tp g c n cur fr).
Proof. left. unfold levels_clear; simpl. auto. Qed.

Lemma reachable_sized s0 s n : reachable s0 s -> sized n s0 -> sized n s.
Proof.
  induction 1 as [|s o s' _ IH Hstep]; intros H0; [assumption|].
  eapply exec_sized; eauto.
Qed.

Lemma reachable_counters s0 s :
  reachable s0 s -> counters_ok s0 -> counters_ok s.
Proof.
  induction 1 as [|s o s' _ IH Hstep]; intros H0; [assumption|].
  apply (exec_counters _ _ _ Hstep). auto.
Qed.

Lemma reachable_coherent s0 s : reachable s0 s -> coherent s0 -> coherent s.
Proof.
  induction 1 as [|s o s' _ IH Hstep]; intros H0; [assumption|].
  eapply exec_coherent; eauto.
Qed.

Lemma run_reachable os : forall s s', run s os = Ok s' -> reachable s s'.
Proof.
  assert (Hgen : forall s0 s s',
             reachable s0 s -> run s os = Ok s' -> reachable s0 s').
  { induction os as [|o os IH]; simpl; intros s0 s s' Hr H.
    - injection H as <-. assumption.
    - bind_inv H. eapply IH; [|eassumption].
      eapply reach_step; eassumption. }
  intros s s'. apply Hgen. constructor.
Qed.

(** As long as every profit is a number: from the all-zero counters of a
    new engine, every state a run reaches has [won + lost + tied = total];
    every call keeps that, adds exactly one to the total when it is a close
    event and leaves the total unchanged otherwise. *)
Theorem trade_counters_invariant (sl tp : Q) (g : bool) (c : Q) (n : nat)
    (cur fr : string) (s : signalHandler)
    (Hr : reachable (init sl tp g c n cur fr) s) :
  counters_ok s /\
  forall o s', exec s o = Ok s' ->
    counters_ok s' /\
    (close_event s o s' -> trades_total s' = (trades_total s + 1)%Z) /\
    (~ close_event s o s' -> trades_total s' = trades_total s).
Proof.
  assert (Hc : counters_ok s)
    by (apply (reachable_counters _ _ Hr); reflexivity).
  split; [assumption|].
  intros o s' Hstep.
  destruct (exec_counters _ _ _ Hstep) as (H1 & H2 & H3). auto.
Qed.

Lemma trade_counters_invariant_witness :
  reachable demo demo_long /\ counters_ok demo_long.
Proof.
  assert (Hr : reachable demo demo_long).
  { eapply reach_step with (o := OpBuy (11049 # 10000) (11050 # 10000) 0);
      [apply reach_init | vm_compute; reflexivity]. }
  split; [exact Hr|].
  exact (proj1 (trade_counters_invariant _ _ _ _ _ _ _ _ Hr)).
Defined.

(** C8. In every state a run reaches, the entry price and the two levels
    are all set, with the position long or short, or all cleared, with the
    position flat; a call that opens a position sets the three of them and
    a call that closes one clears the three of them. *)
Theorem levels_set_or_cleared_together (sl tp : Q) (g : bool) (c : Q)
    (n : nat) (cur fr : string) (s : signalHandler)
    (Hr : reachable (init sl tp g c n cur fr) s) :
  coherent s /\
  forall o s', exec s o = Ok s' ->
    coherent s' /\
    (prev_traded_position s = 0%Z -> prev_traded_position s' <> 0%Z ->
       levels_set s') /\
    (prev_traded_position s <> 0%Z -> prev_traded_position s' = 0%Z ->
       levels_clear s').
Proof.
  assert (Hc : coherent s)
    by (apply (reachable_coherent _ _ Hr); apply init_coherent).
  split; [assumption|].
  intros o s' Hstep.
  pose proof (exec_coherent _ _ _ Hstep Hc) as Hc'.
  split; [assumption|]. split.
  - intros _ Hp. destruct Hc' as [(Hp0 & _) | (_ & Hset)];
      [contradiction | assumption].
  - intros _ Hp. destruct Hc' as [(_ & Hclear) | ([Hp1 | Hp1] & _)];
      [assumption | congruence | congruence].
Qed.

Lemma levels_set_or_cleared_together_witness :
  reachable demo demo_short /\ coherent demo_short.
Proof.
  assert (Hr : reachable demo demo_short).
  { eapply reach_step with (o := OpSell (11049 # 10000) (11050 # 10000) 0);
      [apply reach_init | vm_compute; reflexivity]. }
  split; [exact Hr|].
  exact (proj1 (levels_set_or_cleared_together _ _ _ _ _ _ _ _ Hr)).
Defined.

(** * The summary *)

(** The guard of the percentage keeps the division away from zero. *)
Lemma percentage_ok (count total : Z) :
  exists q,
    percentage count total = Ok q /\
    (total = 0%Z -> q = 0) /\
    ((total > 0)%Z -> q = inject_Z count / inject_Z total * 100).
Proof.
  unfold percentage, truediv.
  destruct (Z.gtb_spec total 0) as [Hpos | Hle].
  - destruct (Z.eqb_spec total 0) as [Hz | _]; [lia|].
    eexists. split; [reflexivity|]. split; [lia | reflexivity].
  - exists 0. split; [reflexivity|]. split; [reflexivity | lia].
Qed.

Lemma getSummary_ok (s : signalHandler) (c : cell Q) :
  last (arr_total_profit s) = Some c ->
  exists won lost tied,
    percentage (trades_won s) (trades_total s) = Ok won /\
    percentage (trades_lost s) (trades_total s) = Ok lost /\
    percentage (trades_tied s) (trades_total s) = Ok tied /\
    getSummary s
    = Ok (mkSummary (currency s) (frequency s) (trades_total s) c
            (cell_scale c 10000) (trades_won s) won (trades_lost s) lost
            (trades_tied s) tied).
Proof.
  intros Hlast.
  destruct (percentage_ok (trades_won s) (trades_total s)) as (w & Hw & _).
  destruct (percentage_ok (trades_lost s) (trades_total s)) as (l & Hl & _).
  destruct (percentage_ok (trades_tied s) (trades_total s)) as (t & Ht & _).
  exists w, l, t. repeat split; try assumption.
  unfold getSummary, list_last. rewrite Hlast, Hw, Hl, Ht. reflexivity.
Qed.

(** [getSummary] raises nothing but the index error of an empty column. *)
Lemma getSummary_raises_only_IndexError (s : signalHandler) (e : exn) :
  getSummary s = Raise e -> e = IndexError /\ arr_total_profit s = [].
Proof.
  destruct (last (arr_total_profit s)) as [c|] eqn:Hlast.
  - destruct (getSummary_ok s c Hlast) as (w & l & t & _ & _ & _ & ->).
    discriminate.
  - unfold getSummary, list_last. rewrite Hlast. simpl.
    intros [= <-]. split; [reflexivity | apply last_None; assumption].
Qed.

(** C9, amended.  Over a series of at least one bar, where the
    cumulative-profit column has a last cell, the summary is returned with
    the total number of trades; when that number is zero the three
    percentages are zero and no division is attempted, and when it is
    positive each percentage is the count divided by the total, times
    100. *)
Theorem summary_percentages (s : signalHandler) (c : cell Q)
    (Hlast : last (arr_total_profit s) = Some c) :
  exists r,
    getSummary s = Ok r /\
    Total_Trades r = trades_total s /\
    (trades_total s = 0%Z ->
       Total_Trades r = 0%Z /\
       Trades_Won_pct r = 0 /\
       Trades_Lost_pct r = 0 /\
       Trades_Tied_pct r = 0) /\
    ((trades_total s > 0)%Z ->
       Trades_Won_pct r
       = inject_Z (trades_won s) / inject_Z (trades_total s) * 100 /\
       Trades_Lost_pct r
       = inject_Z (trades_lost s) / inject_Z (trades_total s) * 100 /\
       Trades_Tied_pct r
       = inject_Z (trades_tied s) / inject_Z (trades_total s) * 100).
Proof.
  destruct (getSummary_ok s c Hlast)
    as (w & l & t & Hw & Hl & Ht & Hsum).
  destruct (percentage_ok (trades_won s) (trades_total s))
    as (w' & Hw' & Hw0 & Hw1).
  destruct (percentage_ok (trades_lost s) (trades_total s))
    as (l' & Hl' & Hl0 & Hl1).
  destruct (percentage_ok (trades_tied s) (trades_total s))
    as (t' & Ht' & Ht0 & Ht1).
  assert (w' = w) by congruence. assert (l' = l) by congruence.
  assert (t' = t) by congruence. subst w' l' t'.
  eexists. split; [exact Hsum|]. simpl.
  split; [reflexivity|]. split.
  - intros Hz. auto.
  - intros Hpos. auto.
Qed.

Lemma summary_percentages_witness :
  exists r,
    getSummary demo_idle = Ok r /\
    Total_Trades r = 0%Z /\
    Trades_Won_pct r = 0 /\ Trades_Lost_pct r = 0 /\ Trades_Tied_pct r = 0.
Proof.
  assert (Hlast : last (arr_total_profit demo_idle) = Some (Filled 0))
    by (vm_compute; reflexivity).
  destruct (summary_percentages demo_idle (Filled 0) Hlast)
    as (r & Hsum & _ & Hzero & _).
  exists r. split; [exact Hsum|].
  apply Hzero. vm_compute. reflexivity.
Defined.

(** The claim C9 fails without a bar: an engine over an empty series has
    made no trade, and its summary is not returned. *)
Lemma zero_trades_without_a_bar :
  trades_total (init (- (10 # 10000)) (10 # 10000) false (2 # 10000) 0
                  "EURUSD" "M5") = 0%Z /\
  getSummary (init (- (10 # 10000)) (10 # 10000) false (2 # 10000) 0
                "EURUSD" "M5") = Raise IndexError /\
  ~ (exists r,
       getSummary (init (- (10 # 10000)) (10 # 10000) false (2 # 10000) 0
                     "EURUSD" "M5") = Ok r).
Proof.
  split; [reflexivity|]. split; [reflexivity|].
  intros (r & Hr). discriminate Hr.
Qed.

(** C10. [getSummary] reads the last cell of the cumulative-profit column,
    which the constructor sizes to the number of bars: after any run over a
    series of at least one bar the summary is returned, and over an empty
    series the call fails with an index error. *)
Theorem summary_needs_a_bar (sl tp : Q) (g : bool) (c : Q) (n : nat)
    (cur fr : string) (s : signalHandler)
    (Hr : reachable (init sl tp g c n cur fr) s) :
  length (arr_total_profit s) = n /\
  ((1 <= n)%nat -> exists r, getSummary s = Ok r) /\
  (n = 0%nat -> getSummary s = Raise IndexError).
Proof.
  pose proof (reachable_sized _ _ n Hr (init_sized _ _ _ _ _ _ _))
    as (_ & _ & _ & Hlen & _).
  split; [assumption|]. split.
  - intros Hn.
    destruct (list_last_ok (arr_total_profit s)) as (x & Hlast & _).
    { intros Hnil. rewrite Hnil in Hlen. simpl in Hlen. lia. }
    destruct (getSummary_ok s x Hlast) as (w & l & t & _ & _ & _ & Hsum).
    eauto.
  - intros Hn. rewrite Hn in Hlen.
    apply length_zero_iff_nil in Hlen.
    unfold getSummary. rewrite Hlen. reflexivity.
Qed.

Lemma summary_needs_a_bar_witness :
  reachable demo demo_long /\ exists r, getSummary demo_long = Ok r.
Proof.
  assert (Hr : reachable demo demo_long).
  { eapply reach_step with (o := OpBuy (11049 # 10000) (11050 # 10000) 0);
      [apply reach_init | vm_compute; reflexivity]. }
  split; [exact Hr|].
  destruct (summary_needs_a_bar _ _ _ _ _ _ _ _ Hr) as (_ & Hsome & _).
  apply Hsome. lia.
Defined.

(** Over an empty series even a fresh engine has no summary. *)
Example summary_of_empty_series :
  getSummary (init (- (10 # 10000)) (10 # 10000) false (2 # 10000) 0
                "EURUSD" "M5")
  = Raise IndexError.
Proof. reflexivity. Qed.

(** * A whole run *)

(** Flat, a buy at an ask of 1.1050, three bars that breach neither level,
    then a sell at a bid of 1.1070: one trade, won, with a net profit of
    0.0020 minus the cost of 0.0002. *)
Example buy_hold_sell_run :
  exists s,
    run demo [OpBuy (11049 # 10000) (11050 # 10000) 0;
              OpCheck (11051 # 10000) (11052 # 10000) 1;
              OpCheck (11055 # 10000) (11056 # 10000) 2;
              OpCheck (11053 # 10000) (11054 # 10000) 3;
              OpSell (11070 # 10000) (11071 # 10000) 4] = Ok s /\
    total_profit s == 18 # 10000 /\
    trades_total s = 1%Z /\ trades_won s = 1%Z /\
    trades_lost s = 0%Z /\ trades_tied s = 0%Z /\
    action s = ["buy"; "hold"; "hold"; "hold"; "close long"]%string.
Proof.
  eexists. split; [vm_compute; reflexivity|].
  repeat split; vm_compute; reflexivity.
Qed.

(** * More on banding *)

(** X1. [bandPL] never reverses the order of two raw profits, and with the
    guaranteed stop the banded profit lies between the stop-loss offset
    minus the cost and the take-profit offset minus the cost. *)
Theorem bandPL_monotone_and_bounded (s : signalHandler) (PL1 PL2 : Q)
    (Hinterval : stop_loss s <= take_profit s) (Hle : PL1 <= PL2) :
  bandPL s PL1 <= bandPL s PL2 /\
  (guaranteed_sl s = true ->
   stop_loss s - broker_cost s <= bandPL s PL1 <= take_profit s - broker_cost s).
Proof.
  unfold bandPL. destruct (guaranteed_sl s).
  - destruct (Qgtb PL1 (take_profit s)) eqn:E1;
      [apply Qgtb_gt in E1 | apply Qgtb_le in E1];
      (destruct (Qgtb PL2 (take_profit s)) eqn:E2;
         [apply Qgtb_gt in E2 | apply Qgtb_le in E2]);
      (destruct (Qltb PL1 (stop_loss s)) eqn:E3;
         [apply Qltb_lt in E3 | apply Qltb_ge in E3]);
      (destruct (Qltb PL2 (stop_loss s)) eqn:E4;
         [apply Qltb_lt in E4 | apply Qltb_ge in E4]);
      repeat split; intros; lra.
  - split; [lra | discriminate].
Qed.

Lemma bandPL_monotone_and_bounded_witness :
  bandPL demo_guaranteed (- (35 # 10000))
  <= bandPL demo_guaranteed (35 # 10000).
Proof.
  assert (H1 : stop_loss demo_guaranteed <= take_profit demo_guaranteed)
    by (apply Qle_bool_iff; vm_compute; reflexivity).
  assert (H2 : - (35 # 10000) <= 35 # 10000)
    by (apply Qle_bool_iff; vm_compute; reflexivity).
  exact (proj1 (bandPL_monotone_and_bounded demo_guaranteed _ _ H1 H2)).
Defined.

(** * Rounding and the classification of a trade *)

Lemma floor_cases (f : Z) :
  ((1 <= f)%Z /\ 1 <= inject_Z f) \/
  f = 0%Z \/
  (f = (-1)%Z) \/
  ((f <= -2)%Z /\ inject_Z f <= - (2)).
Proof.
  destruct (Z_le_gt_dec 1 f) as [H | H].
  - left. split; [assumption|].
    change (inject_Z 1 <= inject_Z f). rewrite <- Zle_Qle. exact H.
  - destruct (Z.eq_dec f 0%Z) as [H0 | H0]; [auto|].
    destruct (Z.eq_dec f (-1)%Z) as [H1 | H1]; [auto|].
    right; right; right. assert (H2 : (f <= -2)%Z) by lia.
    split; [assumption|].
    change (inject_Z f <= inject_Z (-2)). rewrite <- Zle_Qle. exact H2.
Qed.

Lemma round_half_even_sign (y : Q) :
  ((1 <= round_half_even y)%Z <-> 1 # 2 < y) /\
  ((round_half_even y <= -1)%Z <-> y < - (1 # 2)).
Proof.
  unfold round_half_even.
  pose proof (Qfloor_le y) as Hlo. pose proof (Qlt_floor y) as Hhi.
  rewrite inject_Z_plus in Hhi.
  change (inject_Z 1) with 1 in Hhi.
  remember (Qfloor y) as f eqn:Hf. clear Hf.
  destruct (floor_cases f) as [(Hz & Hq) | [-> | [-> | (Hz & Hq)]]];
    match goal with
    | |- context [Qcompare ?u ?v] =>
        destruct (Qcompare_spec u v) as [Hc | Hc | Hc]
    end;
    change (inject_Z 0) with 0 in *;
    change (inject_Z (-1)) with (- (1)) in *;
    simpl; try destruct (Z.even f);
    (split; split; intros H; first [lia | lra]).
Qed.

Lemma round5_sign (x : Q) :
  (0 < round5 x <-> 1 # 200000 < x) /\
  (round5 x < 0 <-> x < - (1 # 200000)) /\
  (round5 x == 0 <-> - (1 # 200000) <= x <= 1 # 200000).
Proof.
  destruct (round_half_even_sign (x * 100000)) as (Hpos & Hneg).
  unfold round5, Qdiv. change (/ 100000) with (1 # 100000).
  set (k := round_half_even (x * 100000)) in *.
  assert (Hk1 : (1 <= k)%Z <-> 0 < inject_Z k).
  { change 0 with (inject_Z 0). rewrite <- Zlt_Qlt. lia. }
  assert (Hk2 : (k <= -1)%Z <-> inject_Z k < 0).
  { change 0 with (inject_Z 0). rewrite <- Zlt_Qlt. lia. }
  assert (Hk3 : k = 0%Z <-> inject_Z k == 0).
  { change 0 with (inject_Z 0). rewrite inject_Z_injective. tauto. }
  split; [|split].
  - split; intros H.
    + assert (H0 : 0 < inject_Z k) by lra.
      apply Hk1 in H0. apply Hpos in H0. lra.
    + assert (H0 : 1 # 2 < x * 100000) by lra.
      apply Hpos in H0. apply Hk1 in H0. lra.
  - split; intros H.
    + assert (H0 : inject_Z k < 0) by lra.
      apply Hk2 in H0. apply Hneg in H0. lra.
    + assert (H0 : x * 100000 < - (1 # 2)) by lra.
      apply Hneg in H0. apply Hk2 in H0. lra.
  - split; intros H.
    + assert (Hz : inject_Z k == 0) by lra. apply Hk3 in Hz.
      split.
      * destruct (Qlt_le_dec (x * 100000) (- (1 # 2))) as [Hl | Hl]; [|lra].
        apply Hneg in Hl. lia.
      * destruct (Qlt_le_dec (1 # 2) (x * 100000)) as [Hl | Hl]; [|lra].
        apply Hpos in Hl. lia.
    + assert (Hz : k = 0%Z).
      { destruct (Z_le_gt_dec 1 k) as [H1 | H1];
          [apply Hpos in H1; lra|].
        destruct (Z_le_gt_dec k (-1)) as [H2 | H2];
          [apply Hneg in H2; lra|].
        lia. }
      apply Hk3 in Hz. lra.
Qed.

(** X2. [closeTrade] counts a trade as won exactly when its net profit
    exceeds half a unit of the fifth decimal, as lost exactly when it is
    below minus that, and as tied in between, bounds included. *)
Theorem classification_thresholds (s : signalHandler) (PL b a : Q)
    (i : nat) (s' : signalHandler)
    (Hclose : closeTrade s PL b a i = Ok s') :
  (1 # 200000 < PL <-> trades_won s' = (trades_won s + 1)%Z) /\
  (PL < - (1 # 200000) <-> trades_lost s' = (trades_lost s + 1)%Z) /\
  (- (1 # 200000) <= PL <= 1 # 200000
   <-> trades_tied s' = (trades_tied s + 1)%Z).
Proof.
  destruct (closeTrade_eff _ _ _ _ _ _ Hclose) as (Hcw & _).
  destruct Hcw as (_ & _ & _ & _ & _ & _ & Hw & Hl & Ht).
  destruct (round5_sign PL) as (Spos & Sneg & Szero).
  destruct (Q_dec (round5 PL) 0) as [[Hlt | Hgt] | Heq].
  - destruct (Hl Hlt) as (E1 & E2 & E3). rewrite E1, E2, E3.
    apply Sneg in Hlt.
    repeat split; intros; first [lia | lra].
  - destruct (Hw Hgt) as (E1 & E2 & E3). rewrite E1, E2, E3.
    apply Spos in Hgt.
    repeat split; intros; first [lia | lra].
  - destruct (Ht Heq) as (E1 & E2 & E3). rewrite E1, E2, E3.
    apply Szero in Heq.
    repeat split; intros; first [lia | lra].
Qed.

Lemma classification_thresholds_witness :
  exists s',
    closeTrade demo_long (18 # 10000) (11070 # 10000) (11071 # 10000) 1
    = Ok s' /\
    trades_won s' = (trades_won demo_long + 1)%Z.
Proof.
  assert (Hc : exists s',
             closeTrade demo_long (18 # 10000) (11070 # 10000)
               (11071 # 10000) 1 = Ok s')
    by (eexists; vm_compute; reflexivity).
  destruct Hc as (s' & Hs'). exists s'. split; [exact Hs'|].
  apply (classification_thresholds _ _ _ _ _ _ Hs').
  apply Qnot_le_lt. intros Hle. apply Qle_bool_iff in Hle.
  vm_compute in Hle. discriminate Hle.
Defined.

(** * Bar indexes *)

Lemma saveStats_raise s PL i n :
  sized n s -> (n <= i)%nat -> saveStats s PL i = Raise IndexError.
Proof.
  intros (H1 & _ & H3 & _) Hi. unfold saveStats.
  assert (Ha : list_set (action s) i (current_action s) = Raise IndexError)
    by (apply list_set_raise; lia).
  repeat match goal with
         | |- context [if ?c then _ else _] => destruct c
         end; rewrite ?Ha; try reflexivity.
  rewrite rbind_ok, list_set_raise by lia. reflexivity.
Qed.

Lemma closeTrade_raise s PL b a i :
  prev_traded_position s = 1%Z \/ prev_traded_position s = (-1)%Z ->
  (length (executed_price s) <= i)%nat ->
  closeTrade s PL b a i = Raise IndexError.
Proof.
  intros Hp Hi. unfold closeTrade, store_executed_price. simpl.
  destruct Hp as [Hp | Hp]; rewrite Hp; simpl;
    rewrite list_set_raise by assumption; reflexivity.
Qed.

Lemma close_and_save_raise s PL b a i n :
  sized n s -> (n <= i)%nat ->
  prev_traded_position s = 1%Z \/ prev_traded_position s = (-1)%Z ->
  close_and_save s PL b a i = Raise IndexError.
Proof.
  intros Hs Hi Hp. unfold close_and_save.
  rewrite closeTrade_raise; [reflexivity | exact Hp |].
  destruct Hs as (_ & _ & _ & _ & Hx & _). simpl. lia.
Qed.

Lemma check_raise s b a i n :
  sized n s -> coherent s -> (n <= i)%nat ->
  checkStopConditions s b a i = Raise IndexError.
Proof.
  intros Hs Hc Hi.
  destruct Hc as [(Hp & _) | ([Hp | Hp] & (e & He) & (sl & Hl) & (tp & Ht))].
  - unfold checkStopConditions. simpl. rewrite Hp. simpl.
    apply (saveStats_raise _ _ _ n); assumption.
  - rewrite (check_long_eq s b a i e tp Hp He Ht), Hl.
    unfold get_attr. rewrite rbind_ok.
    rewrite (close_and_save_raise s _ b a i n) by auto.
    rewrite (saveStats_raise _ _ i n) by assumption.
    destruct (Qleb tp b), (Qgeb sl b); reflexivity.
  - rewrite (check_short_eq s b a i e tp Hp He Ht), Hl.
    unfold get_attr. rewrite rbind_ok.
    rewrite (close_and_save_raise s _ b a i n) by auto.
    rewrite (saveStats_raise _ _ i n) by assumption.
    destruct (Qgeb tp a), (Qleb sl a); reflexivity.
Qed.

(** X3. A bar index at or beyond the end of the series is refused: on any
    coherent engine the three per-bar calls raise [IndexError]. *)
Theorem bar_index_out_of_range (s : signalHandler) (b a : Q) (i n : nat)
    (Hs : sized n s) (Hc : coherent s) (Hi : (n <= i)%nat) :
  buy s b a i = Raise IndexError /\
  sell s b a i = Raise IndexError /\
  checkStopConditions s b a i = Raise IndexError.
Proof.
  pose proof (check_raise s b a i n Hs Hc Hi) as Hcheck.
  pose proof Hs as (_ & _ & _ & _ & Hx & Hl1 & _).
  split; [|split]; [| |assumption].
  - unfold buy.
    destruct Hc as [(Hp & _) | ([Hp | Hp] & (e & He) & _)]; rewrite Hp; simpl.
    + rewrite list_set_raise by lia. reflexivity.
    + exact Hcheck.
    + rewrite He. simpl. rewrite Hp.
      rewrite closeTrade_raise; [reflexivity | simpl; auto | simpl; lia].
  - unfold sell.
    destruct Hc as [(Hp & _) | ([Hp | Hp] & (e & He) & _)]; rewrite Hp; simpl.
    + rewrite list_set_raise by lia. reflexivity.
    + rewrite He. simpl. rewrite Hp.
      rewrite closeTrade_raise; [reflexivity | simpl; auto | simpl; lia].
    + exact Hcheck.
Qed.

Lemma bar_index_out_of_range_witness :
  buy demo_long (11049 # 10000) (11050 # 10000) 5 = Raise IndexError /\
  sell demo_long (11049 # 10000) (11050 # 10000) 5 = Raise IndexError /\
  checkStopConditions demo_long (11049 # 10000) (11050 # 10000) 5
  = Raise IndexError.
Proof.
  apply (bar_index_out_of_range demo_long _ _ 5 5).
  - vm_compute. repeat split; reflexivity.
  - right. split; [left; reflexivity|].
    repeat split; eexists; vm_compute; reflexivity.
  - lia.
Defined.

Lemma calls_succeed s b a i n :
  sized n s -> coherent s -> (i < n)%nat ->
  (exists s', buy s b a i = Ok s') /\
  (exists s', sell s b a i = Ok s') /\
  (exists s', checkStopConditions s b a i = Ok s').
Proof.
  intros Hs Hc Hi.
  assert (Hcheck : exists s', checkStopConditions s b a i = Ok s').
  { destruct Hc as [(Hp & _)
                   | ([Hp | Hp] & (e & He) & (sl & Hl) & (tp & Ht))].
    - unfold checkStopConditions. simpl. rewrite Hp. simpl.
      eexists. apply (saveStats_ok _ 0 i n); simpl; auto.
    - destruct (check_long s b a i n e tp sl Hs Hi Hp He Ht Hl)
        as (s' & H & _). eauto.
    - destruct (check_short s b a i n e tp sl Hs Hi Hp He Ht Hl)
        as (s' & H & _). eauto. }
  split; [|split]; [| |assumption].
  - destruct Hc as [(Hp & _) | ([Hp | Hp] & (e & He) & _)].
    + eexists. apply (buy_opens s b a i n); assumption.
    + unfold buy. rewrite Hp. exact Hcheck.
    + destruct (buy_closes_short s b a i n e Hs Hi Hp He) as (s' & H & _).
      eauto.
  - destruct Hc as [(Hp & _) | ([Hp | Hp] & (e & He) & _)].
    + eexists. apply (sell_opens s b a i n); assumption.
    + destruct (sell_closes_long s b a i n e Hs Hi Hp He) as (s' & H & _).
      eauto.
    + unfold sell. rewrite Hp. exact Hcheck.
Qed.

(** X4. After any run on an engine over [n] bars, a buy, a sell and a check
    at a bar index below [n] all return: the "Unknown Signal!" exception,
    the [TypeError] of a missing entry price and the [AttributeError] of a
    missing level cannot happen. *)
Theorem per_bar_calls_never_raise (sl tp : Q) (g : bool) (c : Q) (n : nat)
    (cur fr : string) (s : signalHandler) (b a : Q) (i : nat)
    (Hr : reachable (init sl tp g c n cur fr) s) (Hi : (i < n)%nat) :
  (exists s', buy s b a i = Ok s') /\
  (exists s', sell s b a i = Ok s') /\
  (exists s', checkStopConditions s b a i = Ok s').
Proof.
  apply (calls_succeed s b a i n).
  - apply (reachable_sized _ _ n Hr). apply init_sized.
  - apply (reachable_coherent _ _ Hr). apply init_coherent.
  - exact Hi.
Qed.

Lemma per_bar_calls_never_raise_witness :
  exists s', sell demo_long (11070 # 10000) (11071 # 10000) 4 = Ok s'.
Proof.
  assert (Hr : reachable demo demo_long).
  { eapply reach_step with (o := OpBuy (11049 # 10000) (11050 # 10000) 0);
      [apply reach_init | vm_compute; reflexivity]. }
  assert (Hi : (4 < 5)%nat) by lia.
  destruct (per_bar_calls_never_raise _ _ _ _ _ _ _ _
              (11070 # 10000) (11071 # 10000) 4 Hr Hi) as (_ & Hsell & _).
  exact Hsell.
Defined.

(** * What a call writes, and where *)

Lemma list_set_other {A : Type} (l l' : list A) (i j : nat) (x : A) :
  list_set l i x = Ok l' -> j <> i -> l' !! j = l !! j.
Proof.
  intros H Hj. apply list_set_inv in H as (_ & ->).
  apply list_lookup_insert_ne. auto.
Qed.

Lemma list_set_same {A : Type} (l l' : list A) (i : nat) (x : A) :
  list_set l i x = Ok l' -> l' !! i = Some x.
Proof.
  intros H. apply list_set_inv in H as (Hi & ->).
  apply list_lookup_insert_eq. exact Hi.
Qed.

Lemma same_cells_except_refl i s : same_cells_except i s s.
Proof. intros j _. repeat split. Qed.

Lemma same_cells_except_trans i s1 s2 s3 :
  same_cells_except i s1 s2 -> same_cells_except i s2 s3 ->
  same_cells_except i s1 s3.
Proof.
  intros H12 H23 j Hj.
  destruct (H12 j Hj) as (A1 & A2 & A3 & A4 & A5 & A6 & A7).
  destruct (H23 j Hj) as (B1 & B2 & B3 & B4 & B5 & B6 & B7).
  repeat split; congruence.
Qed.

Lemma store_executed_price_except s b a i s' :
  store_executed_price s b a i = Ok s' -> same_cells_except i s s'.
Proof.
  unfold store_executed_price. intros H j Hj.
  repeat match type of H with
         | context [if ?c then _ else _] => destruct c
         end;
    try (bind_inv H; pose proof (list_set_other _ _ _ j _ Hx Hj));
    injection H as <-; simpl; repeat split; assumption.
Qed.

Lemma saveStats_except s PL i s' :
  saveStats s PL i = Ok s' -> same_cells_except i s s'.
Proof.
  unfold saveStats. intros H j Hj.
  bind_inv H.
  assert (Ha : action x !! j = action s !! j /\
               position x = position s /\ arr_PL x = arr_PL s /\
               arr_total_profit x = arr_total_profit s /\
               executed_price x = executed_price s /\
               stop_loss_px_list x = stop_loss_px_list s /\
               take_profit_px_list x = take_profit_px_list s).
  { repeat match type of Hx with
           | context [if ?c then _ else _] => destruct c
           end;
      try (bind_inv Hx; pose proof (list_set_other _ _ _ j _ Hx0 Hj));
      injection Hx as <-; simpl; repeat split; assumption. }
  destruct Ha as (A1 & A2 & A3 & A4 & A5 & A6 & A7).
  bind_inv H. bind_inv H. bind_inv H. injection H as <-. simpl in *.
  rewrite A2 in Hx2. rewrite A3 in Hx0. rewrite A4 in Hx1.
  pose proof (list_set_other _ _ _ j _ Hx0 Hj).
  pose proof (list_set_other _ _ _ j _ Hx1 Hj).
  pose proof (list_set_other _ _ _ j _ Hx2 Hj).
  repeat split; congruence.
Qed.

Lemma closeTrade_except s PL b a i s' :
  closeTrade s PL b a i = Ok s' -> same_cells_except i s s'.
Proof.
  unfold closeTrade. intros H. bind_inv H.
  apply store_executed_price_except in Hx.
  assert (Hs : same_cells_except i s x).
  { intros j Hj. specialize (Hx j Hj).
    repeat match type of Hx with
           | context [if ?c then _ else _] => destruct c
           end; exact Hx. }
  simpl in H.
  repeat match type of H with
         | context [if ?c then _ else _] => destruct c
         end; injection H as <-; exact Hs.
Qed.

Lemma buy_open_inv s b a i s' :
  prev_traded_position s = 0%Z -> buy s b a i = Ok s' ->
  exists s1,
    (i < length (stop_loss_px_list s))%nat /\
    (i < length (take_profit_px_list s))%nat /\
    saveStats (opened s 1 a (a + stop_loss s) (a + take_profit s) "buy"
                 (<[i := Filled (a + stop_loss s)]> (stop_loss_px_list s))
                 (<[i := Filled (take_profit s)]> (take_profit_px_list s)))
      0 i = Ok s1 /\
    store_executed_price s1 b a i = Ok s'.
Proof.
  intros Hp H. unfold buy in H. rewrite Hp in H. simpl in H.
  bind_inv H. bind_inv H. bind_inv H.
  apply list_set_inv in Hx as (Hi1 & ->).
  apply list_set_inv in Hx0 as (Hi2 & ->).
  exists x1. auto.
Qed.

Lemma sell_open_inv s b a i s' :
  prev_traded_position s = 0%Z -> sell s b a i = Ok s' ->
  exists s1,
    (i < length (stop_loss_px_list s))%nat /\
    (i < length (take_profit_px_list s))%nat /\
    saveStats (opened s (-1) b (b - stop_loss s) (b - take_profit s) "short"
                 (<[i := Filled (b - stop_loss s)]> (stop_loss_px_list s))
                 (<[i := Filled (b - take_profit s)]>
                    (take_profit_px_list s)))
      0 i = Ok s1 /\
    store_executed_price s1 b a i = Ok s'.
Proof.
  intros Hp H. unfold sell in H. rewrite Hp in H. simpl in H.
  bind_inv H. bind_inv H. bind_inv H.
  apply list_set_inv in Hx as (Hi1 & ->).
  apply list_set_inv in Hx0 as (Hi2 & ->).
  exists x1. auto.
Qed.

Lemma opened_except s side p sl tp ca i x y :
  same_cells_except i s
    (opened s side p sl tp ca (<[i := x]> (stop_loss_px_list s))
       (<[i := y]> (take_profit_px_list s))).
Proof.
  intros j Hj. unfold opened. simpl.
  repeat split; apply list_lookup_insert_ne; auto.
Qed.

Lemma check_except s b a i s' :
  checkStopConditions s b a i = Ok s' -> same_cells_except i s s'.
Proof.
  intros H.
  apply checkStopConditions_cases in H as [(PL & H) | (PL & s1 & _ & H1 & H)].
  - apply saveStats_except in H. exact H.
  - apply closeTrade_except in H1. apply saveStats_except in H.
    eapply same_cells_except_trans; [exact H1 | exact H].
Qed.

Lemma exec_same_cells_except (s : signalHandler) (o : op)
    (s' : signalHandler) (Hstep : exec s o = Ok s') :
  same_cells_except (bar_index o) s s'.
Proof.
  destruct o as [b a i | b a i | b a i | pl b a i]; simpl in *.
  - destruct (Z.eq_dec (prev_traded_position s) 0%Z) as [Hp | Hp].
    + destruct (buy_open_inv s b a i s' Hp Hstep) as (s1 & _ & _ & H1 & H2).
      apply saveStats_except in H1. apply store_executed_price_except in H2.
      eapply same_cells_except_trans; [apply opened_except|].
      eapply same_cells_except_trans; eassumption.
    + apply buy_cases in Hstep
        as [(Hp0 & _) | [(_ & H) | (_ & PL & s1 & s2 & H1 & H2 & H3)]];
        [contradiction | exact (check_except _ _ _ _ _ H) |].
      apply closeTrade_except in H1. apply saveStats_except in H2.
      apply store_executed_price_except in H3.
      eapply same_cells_except_trans; [exact H1|].
      eapply same_cells_except_trans; eassumption.
  - destruct (Z.eq_dec (prev_traded_position s) 0%Z) as [Hp | Hp].
    + destruct (sell_open_inv s b a i s' Hp Hstep) as (s1 & _ & _ & H1 & H2).
      apply saveStats_except in H1. apply store_executed_price_except in H2.
      eapply same_cells_except_trans; [apply opened_except|].
      eapply same_cells_except_trans; eassumption.
    + apply sell_cases in Hstep
        as [(Hp0 & _) | [(_ & H) | (_ & PL & s1 & s2 & H1 & H2 & H3)]];
        [contradiction | exact (check_except _ _ _ _ _ H) |].
      apply closeTrade_except in H1. apply saveStats_except in H2.
      apply store_executed_price_except in H3.
      eapply same_cells_except_trans; [exact H1|].
      eapply same_cells_except_trans; eassumption.
  - exact (check_except _ _ _ _ _ Hstep).
  - apply closeTrade_except in Hstep. exact Hstep.
Qed.

(** X5. A call for bar [i] writes no cell of any other bar: in all seven
    history columns the cells at every other index are as before. *)
Theorem other_bars_untouched (s : signalHandler) (o : op)
    (s' : signalHandler) (Hstep : exec s o = Ok s') :
  same_cells_except (bar_index o) s s'.
Proof. exact (exec_same_cells_except s o s' Hstep). Qed.

Lemma other_bars_untouched_witness :
  exists s',
    exec demo_long (OpSell (11070 # 10000) (11071 # 10000) 4) = Ok s' /\
    same_cells_except 4 demo_long s'.
Proof.
  assert (Hc : exists s',
             exec demo_long (OpSell (11070 # 10000) (11071 # 10000) 4)
             = Ok s')
    by (eexists; vm_compute; reflexivity).
  destruct Hc as (s' & Hs'). exists s'. split; [exact Hs'|].
  exact (other_bars_untouched _ _ _ Hs').
Defined.

Lemma saveStats_shows s PL i s' :
  prev_traded_position s = 0%Z \/ prev_traded_position s = 1%Z
    \/ prev_traded_position s = (-1)%Z ->
  saveStats s PL i = Ok s' ->
  bar_shows_state s' i /\ arr_PL s' !! i = Some (Filled PL).
Proof.
  intros Hp H. unfold saveStats in H. bind_inv H.
  assert (Ha : exists la, list_set (action s) i (current_action s) = Ok la
                          /\ x = set_action la s).
  { destruct Hp as [Hp | [Hp | Hp]]; rewrite Hp in Hx; simpl in Hx;
      bind_inv Hx; injection Hx as <-; eauto. }
  destruct Ha as (la & Hla & ->). clear Hx.
  bind_inv H. bind_inv H. bind_inv H. injection H as <-.
  simpl in *. unfold bar_shows_state. simpl.
  repeat split; eapply list_set_same; eassumption.
Qed.

Lemma store_executed_price_shows s b a i s' :
  store_executed_price s b a i = Ok s' ->
  bar_shows_state s i -> bar_shows_state s' i.
Proof.
  intros H Hb. apply store_executed_price_eff in H as (l & _ & ->).
  exact Hb.
Qed.

Lemma check_shows s b a i s' :
  coherent s -> checkStopConditions s b a i = Ok s' -> bar_shows_state s' i.
Proof.
  intros Hc H.
  apply checkStopConditions_cases in H as [(PL & H) | (PL & s1 & _ & H1 & H)].
  - apply saveStats_shows in H; [apply H|]. simpl.
    destruct Hc as [(Hp & _) | (Hp & _)]; tauto.
  - apply closeTrade_eff in H1 as ((_ & _ & Hp & _) & _).
    apply saveStats_shows in H; [apply H | auto].
Qed.

Lemma per_bar_shows_state (s : signalHandler) (b a : Q) (i : nat)
    (s' : signalHandler) (Hc : coherent s) :
  (buy s b a i = Ok s' -> bar_shows_state s' i) /\
  (sell s b a i = Ok s' -> bar_shows_state s' i) /\
  (checkStopConditions s b a i = Ok s' -> bar_shows_state s' i).
Proof.
  split; [|split]; intros H.
  - destruct (Z.eq_dec (prev_traded_position s) 0%Z) as [Hp | Hp].
    + destruct (buy_open_inv s b a i s' Hp H) as (s1 & _ & _ & H1 & H2).
      apply saveStats_shows in H1; [|simpl; auto].
      eapply store_executed_price_shows; [exact H2 | apply H1].
    + apply buy_cases in H
        as [(Hp0 & _) | [(_ & H) | (_ & PL & s1 & s2 & H1 & H2 & H3)]];
        [contradiction | exact (check_shows _ _ _ _ _ Hc H) |].
      apply closeTrade_eff in H1 as ((_ & _ & Hp1 & _) & _).
      apply saveStats_shows in H2; [|auto].
      eapply store_executed_price_shows; [exact H3 | apply H2].
  - destruct (Z.eq_dec (prev_traded_position s) 0%Z) as [Hp | Hp].
    + destruct (sell_open_inv s b a i s' Hp H) as (s1 & _ & _ & H1 & H2).
      apply saveStats_shows in H1; [|simpl; auto].
      eapply store_executed_price_shows; [exact H2 | apply H1].
    + apply sell_cases in H
        as [(Hp0 & _) | [(_ & H) | (_ & PL & s1 & s2 & H1 & H2 & H3)]];
        [contradiction | exact (check_shows _ _ _ _ _ Hc H) |].
      apply closeTrade_eff in H1 as ((_ & _ & Hp1 & _) & _).
      apply saveStats_shows in H2; [|auto].
      eapply store_executed_price_shows; [exact H3 | apply H2].
  - exact (check_shows _ _ _ _ _ Hc H).
Qed.

(** X6. After a buy, a sell or a check on a coherent engine, the cells of
    the bar in the action, position and cumulative-profit columns show the
    state the call leaves: the label of the action taken, the position
    after the bar and the profit after the bar. *)
Theorem bar_record_shows_state_after (s : signalHandler) (b a : Q) (i : nat)
    (s' : signalHandler) (Hc : coherent s) :
  (buy s b a i = Ok s' -> bar_shows_state s' i) /\
  (sell s b a i = Ok s' -> bar_shows_state s' i) /\
  (checkStopConditions s b a i = Ok s' -> bar_shows_state s' i).
Proof. exact (per_bar_shows_state s b a i s' Hc). Qed.

Lemma bar_record_shows_state_after_witness :
  exists s',
    sell demo_long (11070 # 10000) (11071 # 10000) 4 = Ok s' /\
    bar_shows_state s' 4.
Proof.
  assert (Hc : coherent demo_long).
  { right. split; [left; reflexivity|].
    repeat split; eexists; vm_compute; reflexivity. }
  assert (Hs : exists s',
             sell demo_long (11070 # 10000) (11071 # 10000) 4 = Ok s')
    by (eexists; vm_compute; reflexivity).
  destruct Hs as (s' & Hs'). exists s'. split; [exact Hs'|].
  destruct (bar_record_shows_state_after demo_long (11070 # 10000)
              (11071 # 10000) 4 s' Hc) as (_ & Hsell & _).
  exact (Hsell Hs').
Defined.

(** X7. On a hold bar of an open position the profit column holds the
    unrealised profit of the position at the bar, the side sign times the
    difference of the closing-side price and the entry price, with no
    banding and no cost; on a bar closed by a breach it holds the banded
    net profit of the trade. *)
Theorem profit_column_of_a_check (s : signalHandler) (b a : Q) (i n : nat)
    (entry tp sl : Q)
    (Hs : sized n s) (Hi : (i < n)%nat)
    (He : prev_traded_price s = Some entry)
    (Ht : take_profit_px s = Some tp)
    (Hl : stop_loss_px s = Some sl) :
  (prev_traded_position s = 1%Z ->
   let raw := inject_Z 1 * (b - entry) in
   exists s',
     checkStopConditions s b a i = Ok s' /\
     (tp <= b \/ b <= sl -> arr_PL s' !! i = Some (Filled (bandPL s raw))) /\
     (~ tp <= b -> ~ b <= sl -> arr_PL s' !! i = Some (Filled raw))) /\
  (prev_traded_position s = (-1)%Z ->
   let raw := inject_Z (-1) * (a - entry) in
   exists s',
     checkStopConditions s b a i = Ok s' /\
     (a <= tp \/ sl <= a -> arr_PL s' !! i = Some (Filled (bandPL s raw))) /\
     (~ a <= tp -> ~ sl <= a -> arr_PL s' !! i = Some (Filled raw))).
Proof.
  split; intros Hp raw.
  - destruct (close_and_save_ok s (bandPL s raw) b a i n Hs Hi
                (or_introl Hp)) as (sc & Hc & _ & _ & _ & _ & Hplc).
    destruct (hold_and_save_ok s raw i n Hs Hi (or_introl Hp))
      as (sh & Hh & _ & _ & _ & _ & Hplh).
    rewrite (check_long_eq s b a i entry tp Hp He Ht), Hl.
    unfold get_attr. rewrite rbind_ok. fold raw.
    destruct (Qleb tp b) eqn:E1;
      [apply Qleb_le in E1 | apply Qleb_gt in E1;
       destruct (Qgeb sl b) eqn:E2;
         [apply Qgeb_ge in E2 | apply Qgeb_lt in E2]].
    + exists sc. repeat split; auto. intros; exfalso; lra.
    + exists sc. repeat split; auto. intros; exfalso; lra.
    + exists sh. repeat split; auto. intros [H | H]; exfalso; lra.
  - destruct (close_and_save_ok s (bandPL s raw) b a i n Hs Hi
                (or_intror Hp)) as (sc & Hc & _ & _ & _ & _ & Hplc).
    destruct (hold_and_save_ok s raw i n Hs Hi (or_intror Hp))
      as (sh & Hh & _ & _ & _ & _ & Hplh).
    rewrite (check_short_eq s b a i entry tp Hp He Ht), Hl.
    unfold get_attr. rewrite rbind_ok. fold raw.
    destruct (Qgeb tp a) eqn:E1;
      [apply Qgeb_ge in E1 | apply Qgeb_lt in E1;
       destruct (Qleb sl a) eqn:E2;
         [apply Qleb_le in E2 | apply Qleb_gt in E2]].
    + exists sc. repeat split; auto. intros; exfalso; lra.
    + exists sc. repeat split; auto. intros; exfalso; lra.
    + exists sh. repeat split; auto. intros [H | H]; exfalso; lra.
Qed.

Lemma profit_column_of_a_check_witness :
  exists s',
    checkStopConditions demo_long (11051 # 10000) (11052 # 10000) 1 = Ok s' /\
    arr_PL s' !! 1%nat
    = Some (Filled (inject_Z 1 * ((11051 # 10000) - (11050 # 10000)))).
Proof.
  assert (H1 : sized 5 demo_long) by (vm_compute; repeat split; reflexivity).
  assert (H2 : (1 < 5)%nat) by lia.
  destruct (profit_column_of_a_check demo_long (11051 # 10000)
              (11052 # 10000) 1 5 (11050 # 10000)
              ((11050 # 10000) + (10 # 10000))
              ((11050 # 10000) + - (10 # 10000)) H1 H2
              eq_refl eq_refl eq_refl) as (Hlong & _).
  destruct (Hlong eq_refl) as (s' & Hcheck & _ & Hhold).
  exists s'. split; [exact Hcheck|].
  apply Hhold; intros Hle; apply Qle_bool_iff in Hle;
    vm_compute in Hle; discriminate Hle.
Defined.

(** X8. The cumulative profit changes only on a close event: a call that
    opens a position or holds one leaves it as it was. *)
Theorem profit_changes_only_on_close (s : signalHandler) (o : op)
    (s' : signalHandler) (Hstep : exec s o = Ok s')
    (Hno : ~ close_event s o s') :
  total_profit s' = total_profit s.
Proof.
  destruct o as [b a i | b a i | b a i | pl b a i];
    unfold close_event in Hno; [| | |exfalso; apply Hno; exact I];
    exec_cases Hstep; effects;
    repeat match goal with
           | Hcw : closed_with _ _ _ |- _ =>
               destruct Hcw as (_ & _ & ? & _)
           end;
    simpl in *; try reflexivity;
    exfalso; apply Hno; split; (assumption || lia).
Qed.

Lemma profit_changes_only_on_close_witness :
  total_profit demo_long = total_profit demo.
Proof.
  assert (Hstep : exec demo (OpBuy (11049 # 10000) (11050 # 10000) 0)
                  = Ok demo_long) by (vm_compute; reflexivity).
  apply (profit_changes_only_on_close _ _ _ Hstep).
  intros (Hflat & _). apply Hflat. reflexivity.
Defined.

(** * The configuration and the levels along a run *)

Lemma closeTrade_config s PL b a i s' :
  closeTrade s PL b a i = Ok s' ->
  original_stop_loss s' = original_stop_loss s /\
  original_take_profit s' = original_take_profit s /\
  stop_loss s' = original_stop_loss s /\
  take_profit s' = original_take_profit s /\
  guaranteed_sl s' = guaranteed_sl s /\
  broker_cost s' = broker_cost s /\
  currency s' = currency s /\
  frequency s' = frequency s.
Proof.
  unfold closeTrade. intros H. bind_inv H.
  assert (Hx' : original_stop_loss x = original_stop_loss s /\
                original_take_profit x = original_take_profit s /\
                guaranteed_sl x = guaranteed_sl s /\
                broker_cost x = broker_cost s /\
                currency x = currency s /\ frequency x = frequency s).
  { simpl in Hx.
    repeat match type of Hx with
           | context [if ?c then _ else _] => destruct c
           end;
      apply store_executed_price_eff in Hx as (l & _ & ->); simpl; auto 10. }
  destruct Hx' as (A1 & A2 & A3 & A4 & A5 & A6).
  simpl in H.
  repeat match type of H with
         | context [if ?c then _ else _] => destruct c
         end; injection H as <-; simpl; auto 10.
Qed.

(** [effects], keeping what a close does to the configuration. *)
Ltac effects_config :=
  repeat match goal with
  | H : closeTrade _ _ _ _ _ = Ok _ |- _ =>
      pose proof (closeTrade_config _ _ _ _ _ _ H);
      apply closeTrade_eff in H as (? & ?)
  end;
  effects.

Lemma exec_config sl tp g c cur fr s o s' :
  exec s o = Ok s' ->
  config_is sl tp g c cur fr s -> config_is sl tp g c cur fr s'.
Proof.
  intros H Hc. unfold config_is in *.
  exec_cases H; effects_config; simpl in *; intuition congruence.
Qed.

Lemma exec_levels_track s o s' :
  exec s o = Ok s' -> levels_track s -> levels_track s'.
Proof.
  intros H Ht.
  exec_cases H; effects;
    repeat match goal with
           | Hcw : closed_with _ _ _ |- _ =>
               destruct Hcw as (_ & _ & ? & _)
           end;
    unfold levels_track, opened in *; simpl in *;
    first
      [ exact Ht
      | split; intros Hp; first [discriminate Hp | congruence | eauto] ].
Qed.

Lemma init_config sl tp g c n cur fr :
  config_is sl tp g c cur fr (init sl tp g c n cur fr).
Proof. unfold config_is; simpl; auto 10. Qed.

Lemma init_levels_track sl tp g c n cur fr :
  levels_track (init sl tp g c n cur fr).
Proof. split; simpl; discriminate. Qed.

Lemma configuration_and_levels_track_of_run sl tp g c n cur fr s :
  reachable (init sl tp g c n cur fr) s ->
  config_is sl tp g c cur fr s /\ levels_track s.
Proof.
  induction 1 as [|s o s' _ (IH1 & IH2) Hstep].
  - split; [apply init_config | apply init_levels_track].
  - split; [eapply exec_config | eapply exec_levels_track]; eassumption.
Qed.

(** X9. Along every run the configuration is the one given to the
    constructor, the working offsets included, and the levels of an open
    position are its entry price plus the offsets for a long and minus the
    offsets for a short. *)
Theorem configuration_and_levels_invariant (sl tp : Q) (g : bool) (c : Q)
    (n : nat) (cur fr : string) (s : signalHandler)
    (Hr : reachable (init sl tp g c n cur fr) s) :
  config_is sl tp g c cur fr s /\ levels_track s.
Proof.
  exact (configuration_and_levels_track_of_run _ _ _ _ _ _ _ _ Hr).
Qed.

Lemma configuration_and_levels_invariant_witness :
  reachable demo demo_short /\
  stop_loss_px demo_short
  = Some ((11049 # 10000) - stop_loss demo_short).
Proof.
  assert (Hr : reachable demo demo_short).
  { eapply reach_step with (o := OpSell (11049 # 10000) (11050 # 10000) 0);
      [apply reach_init | vm_compute; reflexivity]. }
  split; [exact Hr|].
  destruct (configuration_and_levels_invariant _ _ _ _ _ _ _ _ Hr)
    as (_ & _ & Hshort).
  destruct (Hshort eq_refl) as (e & He & Hsl & _).
  vm_compute in He. injection He as <-. exact Hsl.
Defined.

(** * Realigning the levels *)



(** * More on the summary *)

Lemma last_of_sized {A : Type} (l : list A) (n : nat) (x : A) :
  length l = n -> (1 <= n)%nat -> l !! (n - 1)%nat = Some x ->
  last l = Some x.
Proof.
  intros Hlen Hn Hx. rewrite last_lookup, Hlen.
  replace (Nat.pred n) with (n - 1)%nat by lia. exact Hx.
Qed.

(** X13. Once the last bar of the series has been processed by a buy, a
    sell or a check, the summary reports the cumulative profit of the
    engine as its total, and 10000 times that as the total in pips. *)
Theorem summary_totals_after_last_bar (s : signalHandler) (b a : Q)
    (n : nat) (s' : signalHandler)
    (Hs : sized n s) (Hc : coherent s) (Hn : (1 <= n)%nat)
    (Hbar : buy s b a (n - 1) = Ok s' \/ sell s b a (n - 1) = Ok s'
            \/ checkStopConditions s b a (n - 1) = Ok s') :
  exists r,
    getSummary s' = Ok r /\
    Total_Trades r = trades_total s' /\
    Total_PL r = Filled (total_profit s') /\
    Total_PL_pips r = Filled (total_profit s' * 10000).
Proof.
  assert (Hshow : bar_shows_state s' (n - 1)).
  { destruct (per_bar_shows_state s b a (n - 1)%nat s' Hc)
      as (H1 & H2 & H3).
    destruct Hbar as [H | [H | H]]; auto. }
  assert (Hs' : sized n s').
  { destruct Hbar as [H | [H | H]].
    - exact (exec_sized s (OpBuy b a (n - 1)) s' n H Hs).
    - exact (exec_sized s (OpSell b a (n - 1)) s' n H Hs).
    - exact (exec_sized s (OpCheck b a (n - 1)) s' n H Hs). }
  destruct Hshow as (_ & Hprofit & _).
  destruct Hs' as (_ & _ & _ & Hlen & _).
  pose proof (last_of_sized _ _ _ Hlen Hn Hprofit) as Hlast.
  destruct (getSummary_ok s' _ Hlast) as (w & l & t & _ & _ & _ & Hsum).
  eexists. split; [exact Hsum|]. simpl. auto.
Qed.

Lemma summary_totals_after_last_bar_witness :
  exists s' r,
    sell demo_long (11070 # 10000) (11071 # 10000) 4 = Ok s' /\
    getSummary s' = Ok r /\
    Total_PL r = Filled (total_profit s').
Proof.
  assert (H1 : sized 5 demo_long) by (vm_compute; repeat split; reflexivity).
  assert (H2 : coherent demo_long).
  { right. split; [left; reflexivity|].
    repeat split; eexists; vm_compute; reflexivity. }
  assert (H3 : (1 <= 5)%nat) by lia.
  assert (Hsell : exists s',
             sell demo_long (11070 # 10000) (11071 # 10000) (5 - 1) = Ok s')
    by (eexists; vm_compute; reflexivity).
  destruct Hsell as (s' & Hs').
  destruct (summary_totals_after_last_bar demo_long (11070 # 10000)
              (11071 # 10000) 5 s' H1 H2 H3 (or_intror (or_introl Hs')))
    as (r & Hsum & _ & Hpl & _).
  exists s', r. auto.
Defined.

Lemma run_keeps_last_blank (n : nat) (os : list op) :
  forall s s',
    sized n s ->
    arr_total_profit s !! (n - 1)%nat = Some Blank ->
    Forall (fun o => bar_index o <> (n - 1)%nat) os ->
    run s os = Ok s' ->
    sized n s' /\ arr_total_profit s' !! (n - 1)%nat = Some Blank.
Proof.
  induction os as [|o os IH]; simpl; intros s s' Hs Hb Hall Hrun.
  - injection Hrun as <-. auto.
  - bind_inv Hrun. inversion Hall as [|? ? Ho Hos]; subst.
    apply (IH x s'); try assumption.
    + exact (exec_sized _ _ _ _ Hx Hs).
    + destruct (exec_same_cells_except _ _ _ Hx (n - 1)%nat)
        as (_ & _ & _ & Hcell & _); [auto|].
      rewrite Hcell. exact Hb.
Qed.

(** X14. Until the last bar of the series has been processed, the summary
    is returned with its two profit totals unset: they are the placeholder
    of the column, not zero, whatever calls were made for the other
    bars. *)
Theorem summary_totals_unset_before_last_bar (sl tp : Q) (g : bool) (c : Q)
    (n : nat) (cur fr : string) (os : list op) (s : signalHandler)
    (Hn : (1 <= n)%nat)
    (Hbars : Forall (fun o => bar_index o <> (n - 1)%nat) os)
    (Hrun : run (init sl tp g c n cur fr) os = Ok s) :
  exists r,
    getSummary s = Ok r /\ Total_PL r = Blank /\ Total_PL_pips r = Blank.
Proof.
  destruct (run_keeps_last_blank n os _ s (init_sized sl tp g c n cur fr))
    as (Hs & Hb); try assumption.
  { simpl. apply lookup_replicate_2. lia. }
  destruct Hs as (_ & _ & _ & Hlen & _).
  pose proof (last_of_sized _ _ _ Hlen Hn Hb) as Hlast.
  destruct (getSummary_ok s _ Hlast) as (w & l & t & _ & _ & _ & Hsum).
  eexists. split; [exact Hsum|]. simpl. auto.
Qed.

Lemma summary_totals_unset_before_last_bar_witness :
  exists r,
    getSummary demo_closed = Ok r /\
    Total_PL r = Blank /\ Total_PL_pips r = Blank.
Proof.
  apply (summary_totals_unset_before_last_bar
           (- (10 # 10000)) (10 # 10000) false (2 # 10000) 5
           "EURUSD" "M5"
           [OpBuy (11049 # 10000) (11050 # 10000) 0;
            OpSell (11070 # 10000) (11071 # 10000) 1]).
  - lia.
  - repeat constructor; simpl; lia.
  - vm_compute. reflexivity.
Defined.

(** * Signals and indicators *)

Section Recorder.

Context {row : Type}.
Implicit Types (self : recorder row) (f : list row).

Lemma list_last_raise f e : list_last f = Raise e -> e = IndexError.
Proof.
  unfold list_last. destruct (last f); [discriminate|].
  intros [= <-]. reflexivity.
Qed.

Lemma store_appends_last self sg fi r i :
  storeIndicators self = 1%Z -> indicatorDf self <> [] ->
  (i < length (signal_list self))%nat ->
  storeSignalAndIndicators self sg (Some (fi ++ [r])) i
  = Ok (mkRecorder 1 (indicatorDf self ++ [r])
          (<[i := Filled sg]> (signal_list self))).
Proof.
  intros Hflag Hne Hi. unfold storeSignalAndIndicators.
  rewrite Hflag. simpl.
  destruct (indicatorDf self) as [|r0 rs] eqn:Hdf; [contradiction|].
  unfold list_last. rewrite last_snoc. simpl.
  rewrite list_set_ok by exact Hi. reflexivity.
Qed.

Lemma store_all_appends (rest : list (Z * list row * row)) :
  forall self start,
    storeIndicators self = 1%Z -> indicatorDf self <> [] ->
    (start + length rest <= length (signal_list self))%nat ->
    exists self',
      store_all self start (map later_bar rest) = Ok self' /\
      indicatorDf self' = indicatorDf self ++ map snd rest /\
      length (signal_list self') = length (signal_list self) /\
      (forall j, (j < start)%nat ->
         signal_list self' !! j = signal_list self !! j) /\
      (forall k x, rest !! k = Some x ->
         signal_list self' !! (start + k)%nat = Some (Filled (fst (fst x)))).
Proof.
  induction rest as [|[[sg fi] r] rest IH]; intros self start Hflag Hne Hlen.
  - exists self. simpl. rewrite app_nil_r.
    repeat split; auto. intros k x Hk. discriminate Hk.
  - simpl in Hlen. simpl.
    rewrite (store_appends_last self sg fi r start Hflag Hne) by lia.
    rewrite rbind_ok.
    destruct (IH (mkRecorder 1 (indicatorDf self ++ [r])
                    (<[start := Filled sg]> (signal_list self))) (S start))
      as (self' & Hrun & Hdf & Hl & Hbelow & Hat).
    + reflexivity.
    + simpl. intros Hnil. apply app_eq_nil in Hnil as (_ & Hnil).
      discriminate Hnil.
    + simpl. rewrite length_insert. lia.
    + exists self'. simpl in *. split; [exact Hrun|].
      split; [rewrite Hdf, <- app_assoc; reflexivity|].
      split; [rewrite Hl, length_insert; reflexivity|].
      split.
      * intros j Hj. rewrite Hbelow by lia.
        apply list_lookup_insert_ne. lia.
      * intros [|k] x Hk; simpl in Hk.
        -- injection Hk as <-. simpl.
           rewrite Nat.add_0_r, Hbelow by lia.
           apply list_lookup_insert_eq. lia.
        -- replace (start + S k)%nat with (S start + k)%nat by lia.
           apply Hat. exact Hk.
Qed.

(** X15. With retention on, the indicator store takes every row of the
    first frame that is not empty and then only the last row of each later
    frame: after a first frame of [length f0] rows and [length rest] later
    bars it holds [length f0 + length rest] rows, and every bar has its
    signal in the signal column. *)
Theorem indicator_store_contents (n : nat) (sg0 : Z) (f0 : list row)
    (rest : list (Z * list row * row))
    (Hf0 : f0 <> []) (Hn : (1 + length rest <= n)%nat) :
  exists self',
    store_all (init_recorder 1 n) 0
      ((sg0, Some f0) :: map later_bar rest) = Ok self' /\
    indicatorDf self' = f0 ++ map snd rest /\
    length (indicatorDf self') = (length f0 + length rest)%nat /\
    signal_list self' !! 0%nat = Some (Filled sg0) /\
    (forall k x, rest !! k = Some x ->
       signal_list self' !! (S k) = Some (Filled (fst (fst x)))).
Proof.
  simpl. unfold storeSignalAndIndicators at 1. simpl.
  rewrite list_set_ok by (rewrite length_replicate; lia).
  rewrite !rbind_ok. simpl.
  destruct (store_all_appends rest
              (mkRecorder 1 f0 (<[0%nat := Filled sg0]> (replicate n Blank)))
              1)
    as (self' & Hrun & Hdf & Hl & Hbelow & Hat).
  - reflexivity.
  - exact Hf0.
  - simpl. rewrite length_insert, length_replicate. lia.
  - exists self'. simpl in *. split; [exact Hrun|].
    split; [exact Hdf|]. split.
    + rewrite Hdf, length_app, length_map. reflexivity.
    + split.
      * rewrite Hbelow by lia. apply list_lookup_insert_eq.
        rewrite length_replicate. lia.
      * intros k x Hk. apply (Hat k x Hk).
Qed.

(** X16. The edges of [storeSignalAndIndicators]: with retention off or no
    frame given the store is left as it is and the signal is stored; an
    empty frame offered to a store that already has rows raises
    [IndexError], and so does a bar index beyond the signal column. *)
Theorem storeSignalAndIndicators_edges (self : recorder row) (sg : Z)
    (frame : option (list row)) (i : nat) :
  (storeIndicators self <> 1%Z \/ frame = None ->
   (i < length (signal_list self))%nat ->
   storeSignalAndIndicators self sg frame i
   = Ok (mkRecorder (storeIndicators self) (indicatorDf self)
           (<[i := Filled sg]> (signal_list self)))) /\
  (storeIndicators self = 1%Z -> indicatorDf self <> [] ->
   frame = Some [] ->
   storeSignalAndIndicators self sg frame i = Raise IndexError) /\
  ((length (signal_list self) <= i)%nat ->
   storeSignalAndIndicators self sg frame i = Raise IndexError).
Proof.
  split; [|split].
  - intros Hoff Hi. unfold storeSignalAndIndicators.
    assert (Hkeep :
      (if (storeIndicators self =? 1)%Z then
         match frame with
         | Some f =>
             match indicatorDf self with
             | [] => Ok (mkRecorder (storeIndicators self) f
                           (signal_list self))
             | _ :: _ =>
                 call r := list_last f in
                 Ok (mkRecorder (storeIndicators self)
                       (indicatorDf self ++ [r]) (signal_list self))
             end
         | None => Ok self
         end
       else Ok self) = Ok self).
    { destruct Hoff as [Hflag | ->].
      - apply Z.eqb_neq in Hflag. rewrite Hflag. reflexivity.
      - destruct (storeIndicators self =? 1)%Z; reflexivity. }
    rewrite Hkeep, rbind_ok, list_set_ok by exact Hi. reflexivity.
  - intros Hflag Hne ->. unfold storeSignalAndIndicators.
    rewrite Hflag. simpl.
    destruct (indicatorDf self); [contradiction | reflexivity].
  - intros Hi. unfold storeSignalAndIndicators.
    destruct (storeIndicators self =? 1)%Z;
      [destruct frame as [f|];
         [destruct (indicatorDf self) as [|r0 rs];
            [|destruct (list_last f) as [r1|e] eqn:E;
                [|apply list_last_raise in E; subst e; reflexivity]]|]|];
      rewrite ?rbind_ok; simpl;
      rewrite list_set_raise by exact Hi; reflexivity.
Qed.

End Recorder.

Lemma indicator_store_contents_witness :
  exists self',
    store_all (init_recorder 1 5) 0
      ((1%Z, Some [10%Z; 11%Z; 12%Z])
         :: map later_bar [(0%Z, [11%Z; 12%Z], 13%Z);
                           ((-1)%Z, [12%Z; 13%Z], 14%Z)]) = Ok self' /\
    length (indicatorDf self') = 5%nat.
Proof.
  destruct (indicator_store_contents 5 1%Z [10%Z; 11%Z; 12%Z]
              [(0%Z, [11%Z; 12%Z], 13%Z); ((-1)%Z, [12%Z; 13%Z], 14%Z)])
    as (self' & Hrun & _ & Hlen & _).
  - discriminate.
  - simpl. lia.
  - exists self'. split; [exact Hrun | exact Hlen].
Defined.

Lemma storeSignalAndIndicators_edges_witness :
  storeSignalAndIndicators (mkRecorder 1 [10%Z] (replicate 5 Blank)) 1
    (Some []) 1
  = Raise IndexError.
Proof.
  destruct (storeSignalAndIndicators_edges
              (mkRecorder 1 [10%Z] (replicate 5 Blank)) 1 (Some []) 1)
    as (_ & Hempty & _).
  apply Hempty.
  - reflexivity.
  - discriminate.
  - reflexivity.
Defined.

(** * A price that is not a number *)

(** C6.  The invariant [won + lost + tied = total] does not survive a close
    at a price that is not a number.  On binary64, with the configuration
    of the run file and either setting of the guaranteed stop, a sell on a
    long entered at 1.105 when the bid is NaN counts the trade in the total
    and in none of won, lost and tied, because NaN fails the three tests of
    [closeTrade]: the sum of the three falls one short of the total. *)
Theorem nan_price_breaks_counters
    (round_finite : PrimFloat.float -> PrimFloat.float)
    (guaranteed_sl : bool) (c : Binary64.counters) :
  let c' :=
    Binary64.sell_closes_long round_finite guaranteed_sl
      Binary64.entry_price Binary64.missing_price c in
  Binary64.total c' = (Binary64.total c + 1)%Z /\
  Binary64.won c' = Binary64.won c /\
  Binary64.lost c' = Binary64.lost c /\
  Binary64.tied c' = Binary64.tied c /\
  (Binary64.won c' + Binary64.lost c' + Binary64.tied c'
   - Binary64.total c'
   = Binary64.won c + Binary64.lost c + Binary64.tied c
     - Binary64.total c - 1)%Z.
Proof.
  destruct guaranteed_sl;
    cbv -[Z.add Z.sub Binary64.total Binary64.won Binary64.lost
          Binary64.tied];
    simpl; repeat split; lia.
Qed.
